(** * go-mapreader: typed lookups in [map[string]any] trees

    A shallow embedding of [mapreader.go] (package [mapreader]) and the
    properties of its path resolution and value coercion.

    - A value of Go's [any] is the inductive [any]: the nil interface, or a
      value tagged with its dynamic type.
    - A Go function returning [(T, error)] returns a pair
      [T * option error] inside the [go] monad, whose other outcome is a
      run-time panic.
    - Type parameters are type-class arguments ([GoType]); what the
      language leaves to the implementation (the order in which [range]
      visits a map, the integer a float outside the target's range
      converts to) is a field of the class [Runtime].
    - [int] is 64 bits wide. *)

From Stdlib Require Import ZArith String Ascii List Bool Floats.SpecFloat.
From stdpp Require Import gmap strings list fin_maps.

Local Open Scope Z_scope.

(** ** Numeric values *)

Inductive int_kind : Type :=
| t_int | t_int8 | t_int16 | t_int32 | t_int64
| t_uint | t_uint8 | t_uint16 | t_uint32 | t_uint64 | t_uintptr.

Inductive float_kind : Type := t_float32 | t_float64.

(** The type set of the constraint [number]:
    [constraints.Integer | constraints.Float]. *)
Inductive numkind : Type :=
| KInt (k : int_kind)
| KFloat (k : float_kind).

Definition bits (k : int_kind) : Z :=
  match k with
  | t_int8 | t_uint8 => 8
  | t_int16 | t_uint16 => 16
  | t_int32 | t_uint32 => 32
  | t_int | t_int64 | t_uint | t_uint64 | t_uintptr => 64
  end.

Definition signed (k : int_kind) : bool :=
  match k with
  | t_int | t_int8 | t_int16 | t_int32 | t_int64 => true
  | _ => false
  end.

Definition min_of (k : int_kind) : Z :=
  if signed k then - 2 ^ (bits k - 1) else 0.

Definition max_of (k : int_kind) : Z :=
  if signed k then 2 ^ (bits k - 1) - 1 else 2 ^ bits k - 1.

Definition in_range (k : int_kind) (z : Z) : bool :=
  (min_of k <=? z) && (z <=? max_of k).

(** Conversion between integer types keeps the low [bits k] bits (two's
    complement for the signed kinds). *)
Definition wrap (k : int_kind) (z : Z) : Z :=
  if signed k
  then (z + 2 ^ (bits k - 1)) mod 2 ^ bits k - 2 ^ (bits k - 1)
  else z mod 2 ^ bits k.

Definition prec (k : float_kind) : Z :=
  match k with t_float32 => 24 | t_float64 => 53 end.

Definition emax (k : float_kind) : Z :=
  match k with t_float32 => 128 | t_float64 => 1024 end.

(** A number with its dynamic type: an integer as its mathematical value,
    a float as its IEEE 754 datum. *)
Inductive number : Type :=
| NumInt (k : int_kind) (z : Z)
| NumFloat (k : float_kind) (f : spec_float).

Definition kind_of (x : number) : numkind :=
  match x with
  | NumInt k _ => KInt k
  | NumFloat k _ => KFloat k
  end.

Definition zero_num (R : numkind) : number :=
  match R with
  | KInt k => NumInt k 0
  | KFloat k => NumFloat k (S754_zero false)
  end.

(** [x == y] on two numbers of one type. *)
Definition num_eqb (x y : number) : bool :=
  match x, y with
  | NumInt _ a, NumInt _ b => a =? b
  | NumFloat _ f, NumFloat _ g => SFeqb f g
  | _, _ => false
  end.

(** ** Dynamic values *)

(** A slice is nil or a view of its elements; a map is nil or a table. *)
Inductive slice (A : Type) : Type :=
| SliceNil
| SliceOf (elems : list A).

Inductive gomap (A : Type) : Type :=
| MapNil
| MapOf (m : gmap string A).

Arguments SliceNil {A}.
Arguments SliceOf {A} elems.
Arguments MapNil {A}.
Arguments MapOf {A} m.

Definition elems_of {A} (s : slice A) : list A :=
  match s with SliceNil => [] | SliceOf l => l end.

Definition table_of {A} (m : gomap A) : gmap string A :=
  match m with MapNil => ∅ | MapOf t => t end.

#[local] Unset Elimination Schemes.

(** A value of type [any].  [VOpaque] stands for a value of any other
    dynamic type (a struct, a [[]string], a named type, ...), which the
    package can only hand through. *)
Inductive any : Type :=
| Nil
| VString (s : string)
| VBool (b : bool)
| VBytes (b : slice Byte.byte)
| VNum (x : number)
| VMap (m : gomap any)
| VSlice (s : slice any)
| VOpaque (type_name : string) (id : Z).

#[local] Set Elimination Schemes.

(** [len] *)
Definition len_slice {A} (s : slice A) : Z := Z.of_nat (length (elems_of s)).
Definition len_map {A} (m : gomap A) : Z := Z.of_nat (size (table_of m)).

(** ** Errors *)

Inductive sentinel : Type :=
| ErrEndOfNestedStructures
| ErrIndexOutOfBounds
| ErrKeyNotFound
| ErrNonIntegerSliceAccess
| ErrUnableToConvert
| ErrUnexpectedType.

(** [fmt.Errorf(format, w, args...)] where the first verb of [format] is
    [%w]: an error wrapping the sentinel [w]; the remaining arguments are
    kept as the [any] values they are passed as. *)
Inductive error : Type :=
| Errorf (format : string) (w : sentinel) (args : list any).

Definition Unwrap (e : error) : sentinel :=
  match e with Errorf _ w _ => w end.

(** ** Outcomes *)

(** A call returns or panics. *)
Inductive go (A : Type) : Type :=
| Done (a : A)
| Panic (msg : string).

Arguments Done {A} a.
Arguments Panic {A} msg.

#[global] Instance go_bind : MBind go := fun A B k c =>
  match c with
  | Done a => k a
  | Panic msg => Panic msg
  end.

#[global] Instance go_ret : MRet go := fun A a => Done a.

(** ** Go types as type parameters *)

(** What the package needs of a type argument [T]: its zero value
    ([var nilResult T]), the two-result type assertion [x.(T)], and the
    conversion to [any] of a [T] passed to [fmt.Errorf].  An assertion on
    the nil interface fails for every [T]. *)
Class GoType (T : Type) : Type := {
  zero_value : T;
  type_assert : any -> option T;
  to_any : T -> any;
  type_assert_nil : type_assert Nil = None
}.

#[global] Instance any_GoType : GoType any := {|
  zero_value := Nil;
  type_assert v := match v with Nil => None | _ => Some v end;
  to_any v := v;
  type_assert_nil := eq_refl
|}.

#[global] Instance string_GoType : GoType string := {|
  zero_value := "";
  type_assert v := match v with VString s => Some s | _ => None end;
  to_any := VString;
  type_assert_nil := eq_refl
|}.

#[global] Instance bool_GoType : GoType bool := {|
  zero_value := false;
  type_assert v := match v with VBool b => Some b | _ => None end;
  to_any := VBool;
  type_assert_nil := eq_refl
|}.

#[global] Instance bytes_GoType : GoType (slice Byte.byte) := {|
  zero_value := SliceNil;
  type_assert v := match v with VBytes b => Some b | _ => None end;
  to_any := VBytes;
  type_assert_nil := eq_refl
|}.

#[global] Instance slice_any_GoType : GoType (slice any) := {|
  zero_value := SliceNil;
  type_assert v := match v with VSlice s => Some s | _ => None end;
  to_any := VSlice;
  type_assert_nil := eq_refl
|}.

#[global] Instance map_any_GoType : GoType (gomap any) := {|
  zero_value := MapNil;
  type_assert v := match v with VMap m => Some m | _ => None end;
  to_any := VMap;
  type_assert_nil := eq_refl
|}.

(** ** The standard library functions the package calls *)

(** [strings.Split(s, sep)] for a one-byte separator. *)
Fixpoint Split (s : string) (sep : ascii) : list string :=
  match s with
  | EmptyString => [EmptyString]
  | String c s' =>
      if Ascii.eqb c sep then EmptyString :: Split s' sep
      else match Split s' sep with
           | [] => [String c EmptyString]
           | w :: ws => String c w :: ws
           end
  end.

Definition digit (c : ascii) : option Z :=
  let n := Z.of_N (N_of_ascii c) - 48 in
  if (0 <=? n) && (n <=? 9) then Some n else None.

Fixpoint digits (s : string) (n : Z) : option Z :=
  match s with
  | EmptyString => Some n
  | String c s' =>
      match digit c with
      | Some d => digits s' (n * 10 + d)
      | None => None
      end
  end.

(** [strconv.Atoi]: an optional sign and one or more decimal digits, the
    value within the range of [int]; [None] is a non-nil error. *)
Definition Atoi (s : string) : option Z :=
  let '(neg, body) :=
    match s with
    | String "-"%char t => (true, t)
    | String "+"%char t => (false, t)
    | _ => (false, s)
    end in
  match body with
  | EmptyString => None
  | _ =>
      match digits body 0 with
      | None => None
      | Some n =>
          let v := if neg then - n else n in
          if in_range t_int v then Some v else None
      end
  end.

(** [[]byte(s)] *)
Definition bytes_of_string (s : string) : slice Byte.byte :=
  SliceOf (list_byte_of_string s).

(** [c[i]] on a slice: a run-time panic when [i] is out of range. *)
Definition index {A} (c : slice A) (i : Z) : go A :=
  if i <? 0 then Panic "index out of range"
  else match elems_of c !! Z.to_nat i with
       | Some v => Done v
       | None => Panic "index out of range"
       end.

Definition boxInt (z : Z) : any := VNum (NumInt t_int z).

(** ** GetErr *)

Section GetErr.
Context {T : Type} `{!GoType T}.
Variable source : gomap any.
Variable depth : Z.

(** The [switch c := current.(type)] of the loop body: the new
    [current], or the error the body returns with. *)
Definition switch (i : Z) (k : string) (current : any) : go (any + error) :=
  match current with
  | VMap c =>
      match table_of c !! k with
      | None => Done (inr (Errorf "%w: %s" ErrKeyNotFound [VString k]))
      | Some v => Done (inl v)
      end
  | VSlice c =>
      match Atoi k with
      | None =>
          Done (inr (Errorf "%w: lookup was '%s'" ErrNonIntegerSliceAccess
                       [VString k]))
      | Some i =>
          if (i <? 0) || (i >? len_map source - 1) then
            Done (inr (Errorf "%w: index '%d' but length '%d'"
                         ErrIndexOutOfBounds
                         [boxInt i; boxInt (len_map source)]))
          else
            v ← index c i; Done (inl v)
      end
  | _ =>
      if negb (i =? depth) then
        Done (inr (Errorf "%w: last key was '%s'" ErrEndOfNestedStructures
                     [VString k]))
      else Done (inl current)
  end.

(** [for i, k := range keys { ... }] from index [i] on, and the
    [return nilResult, nil] after it. *)
Fixpoint range_keys (i : Z) (keys : list string) (current : any)
  : go (T * option error) :=
  match keys with
  | [] => Done (zero_value, None)
  | k :: keys' =>
      r ← switch i k current;
      match r with
      | inr err => Done (zero_value, Some err)
      | inl current =>
          if i =? depth then
            match type_assert current with
            | None =>
                Done (zero_value,
                      Some (Errorf "%w: '%T'" ErrUnexpectedType [current]))
            | Some result => Done (result, None)
            end
          else range_keys (i + 1) keys' current
      end
  end.
End GetErr.

Definition GetErr {T : Type} `{!GoType T} (source : gomap any) (path : string)
  : go (T * option error) :=
  let keys := Split path "." in
  let depth := Z.of_nat (length keys) - 1 in
  range_keys source depth 0 keys (VMap source).

(** ** What the language leaves to the implementation *)

(** [float_to_int_overflow k f] is the integer a float [f] converts to
    when its truncation is not a value of the integer type [k] (or [f] is
    an infinity or a NaN): the conversion succeeds and its result is
    implementation-dependent.  [map_range m] is the order in which one
    [range] statement visits the entries of [m]: each entry once, in no
    specified order. *)
Class Runtime : Type := {
  float_to_int_overflow : int_kind -> spec_float -> Z;
  map_range : forall A : Type, gmap string A -> list (string * A);
  map_range_perm :
    forall (A : Type) (m : gmap string A), map_range A m ≡ₚ map_to_list m
}.

Arguments map_range {_ A} m.

(** ** Numeric conversion [R(in)] *)

(** The integer part of a float, the fraction discarded. *)
Definition truncate (f : spec_float) : option Z :=
  match f with
  | S754_zero _ => Some 0
  | S754_finite s m e => Some (cond_Zopp s (Z.shiftl (Z.pos m) e))
  | S754_infinity _ | S754_nan => None
  end.

(** A float rounded to the precision of the kind [k]. *)
Definition round_to (k : float_kind) (f : spec_float) : spec_float :=
  match f with
  | S754_finite s m e => binary_round (prec k) (emax k) s m e
  | _ => f
  end.

Section Coercion.
Context `{!Runtime}.

Definition float_to_int (k : int_kind) (f : spec_float) : Z :=
  match truncate f with
  | Some z =>
      if in_range k z then z else wrap k (float_to_int_overflow k f)
  | None => wrap k (float_to_int_overflow k f)
  end.

Definition convert (R : numkind) (x : number) : number :=
  match R, x with
  | KInt r, NumInt _ z => NumInt r (wrap r z)
  | KInt r, NumFloat _ f => NumInt r (float_to_int r f)
  | KFloat r, NumInt _ z =>
      NumFloat r (binary_normalize (prec r) (emax r) z 0 false)
  | KFloat r, NumFloat _ f => NumFloat r (round_to r f)
  end.

(** ** The unexported helpers *)

Definition withoutError {R : Type} (result : R) (_ : option error) : R :=
  result.

Definition convertNumber (R : numkind) (x : number)
  : number * option error :=
  let converted := convert R x in
  if num_eqb (convert (kind_of x) converted) x then (converted, None)
  else
    let nilResult := zero_num R in
    (nilResult,
     Some (Errorf
             "%w: %T value '%v' cannot be converted to an equal value of type %T"
             ErrUnableToConvert [VNum x; VNum x; VNum nilResult])).

Definition asNumberType (R : numkind) (v : any) : number * option error :=
  match v with
  | VNum (NumFloat t_float64 _ as r) => convertNumber R r
  | VNum (NumFloat t_float32 _ as r) => convertNumber R r
  | VNum (NumInt t_int _ as r) => convertNumber R r
  | VNum (NumInt t_int8 _ as r) => convertNumber R r
  | VNum (NumInt t_int16 _ as r) => convertNumber R r
  | VNum (NumInt t_int32 _ as r) => convertNumber R r
  | VNum (NumInt t_int64 _ as r) => convertNumber R r
  | VNum (NumInt t_uint _ as r) => convertNumber R r
  | VNum (NumInt t_uint8 _ as r) => convertNumber R r
  | VNum (NumInt t_uint16 _ as r) => convertNumber R r
  | VNum (NumInt t_uint32 _ as r) => convertNumber R r
  | VNum (NumInt t_uint64 _ as r) => convertNumber R r
  | r =>
      (zero_num R,
       Some (Errorf "%w: %T is not a supported numeric type"
               ErrUnexpectedType [r]))
  end.

Section Elements.
Context {R : Type} `{!GoType R}.

(** The loop of [asSliceType] from index [i] on. *)
Fixpoint asSliceType_range (i : nat) (rest : list any) (result : list R)
  : slice R * option error :=
  match rest with
  | [] => (SliceOf result, None)
  | v :: rest' =>
      match type_assert v with
      | None =>
          (SliceNil,
           Some (Errorf "%w: %v cannot be converted to %T"
                   ErrUnableToConvert [v; to_any zero_value]))
      | Some value => asSliceType_range (S i) rest' (<[i := value]> result)
      end
  end.

Definition asSliceType (input : slice any) : slice R * option error :=
  let result := replicate (length (elems_of input)) zero_value in
  asSliceType_range 0 (elems_of input) result.

(** The loop of [asMapType] over the entries still to visit. *)
Fixpoint asMapType_range (rest : list (string * any))
  (result : gmap string R) : gomap R * option error :=
  match rest with
  | [] => (MapOf result, None)
  | (i, v) :: rest' =>
      match type_assert v with
      | None =>
          (MapNil,
           Some (Errorf "%w: %v cannot be converted to %T"
                   ErrUnableToConvert [v; to_any zero_value]))
      | Some value => asMapType_range rest' (<[i := value]> result)
      end
  end.

Definition asMapType (input : gomap any) : gomap R * option error :=
  let result : gmap string R := ∅ in
  asMapType_range (map_range (table_of input)) result.
End Elements.

(** ** The exported functions *)

Definition Get {T : Type} `{!GoType T} (source : gomap any) (path : string)
  : go T :=
  '(result, err) ← GetErr source path;
  Done (withoutError result err).

Definition BoolErr (source : gomap any) (path : string)
  : go (bool * option error) :=
  GetErr (T := bool) source path.

Definition Bool (source : gomap any) (path : string) : go bool :=
  '(result, err) ← BoolErr source path;
  Done (withoutError result err).

Definition BytesErr (source : gomap any) (path : string)
  : go (slice Byte.byte * option error) :=
  '(value, err) ← GetErr (T := any) source path;
  match err with
  | Some e => Done (SliceNil, Some e)
  | None =>
      match value with
      | VString v => Done (bytes_of_string v, None)
      | VBytes v => Done (v, None)
      | _ =>
          Done (SliceNil,
                Some (Errorf "%w: %v cannot be converted to []byte"
                        ErrUnableToConvert [value]))
      end
  end.

Definition Bytes (source : gomap any) (path : string)
  : go (slice Byte.byte) :=
  '(result, err) ← BytesErr source path;
  Done (withoutError result err).

Definition NumberErr (R : numkind) (source : gomap any) (path : string)
  : go (number * option error) :=
  '(result, err) ← GetErr (T := any) source path;
  match err with
  | Some e => Done (zero_num R, Some e)
  | None => Done (asNumberType R result)
  end.

Definition Number (R : numkind) (source : gomap any) (path : string)
  : go number :=
  '(result, err) ← NumberErr R source path;
  Done (withoutError result err).

Definition Float64Err (source : gomap any) (path : string)
  : go (number * option error) :=
  NumberErr (KFloat t_float64) source path.

Definition Float64 (source : gomap any) (path : string) : go number :=
  '(result, err) ← Float64Err source path;
  Done (withoutError result err).

Definition IntErr (source : gomap any) (path : string)
  : go (number * option error) :=
  NumberErr (KInt t_int) source path.

Definition Int (source : gomap any) (path : string) : go number :=
  '(result, err) ← IntErr source path;
  Done (withoutError result err).

Definition SliceErr {V : Type} `{!GoType V} (source : gomap any)
  (path : string) : go (slice V * option error) :=
  '(result, err) ← GetErr (T := slice any) source path;
  match err with
  | Some e => Done (SliceNil, Some e)
  | None => Done (asSliceType result)
  end.

Definition Slice {V : Type} `{!GoType V} (source : gomap any)
  (path : string) : go (slice V) :=
  '(result, err) ← SliceErr source path;
  Done (withoutError result err).

Definition StrErr (source : gomap any) (path : string)
  : go (string * option error) :=
  GetErr (T := string) source path.

Definition Str (source : gomap any) (path : string) : go string :=
  '(result, err) ← StrErr source path;
  Done (withoutError result err).

Definition MapErr {V : Type} `{!GoType V} (source : gomap any)
  (path : string) : go (gomap V * option error) :=
  '(result, err) ← GetErr (T := gomap any) source path;
  match err with
  | Some e => Done (MapNil, Some e)
  | None => Done (asMapType result)
  end.

Definition Map {V : Type} `{!GoType V} (source : gomap any)
  (path : string) : go (gomap V) :=
  '(result, err) ← MapErr source path;
  Done (withoutError result err).
End Coercion.

(** ** A runtime and the trees of the examples *)

(** One implementation: an out-of-range float converts to the
    integer with only the sign bit set, and [range] visits a map in the
    order of [map_to_list]. *)
#[global] Instance sample_runtime : Runtime := {|
  float_to_int_overflow _ _ := - 2 ^ 63;
  map_range A m := map_to_list m;
  map_range_perm A m := Permutation_refl (map_to_list m)
|}.

Definition f64 (m e : Z) : any :=
  VNum (NumFloat t_float64 (binary_normalize 53 1024 m e false)).

Definition obj (l : list (string * any)) : gomap any := MapOf (list_to_map l).
Definition arr (l : list any) : any := VSlice (SliceOf l).

(** ** Observing the loop of [GetErr] *)

(** [walk source depth i keys current n]: the value of [current] at the
    head of the iteration [n] steps after iteration [i], when the loop
    gets there ([None] when it has returned or panicked before). *)
Fixpoint walk (source : gomap any) (depth i : Z) (keys : list string)
  (current : any) (n : nat) {struct n} : option any :=
  match n with
  | O => Some current
  | S n' =>
      match keys with
      | [] => None
      | k :: keys' =>
          match switch source depth i k current with
          | Done (inl current') =>
              if i =? depth then None
              else walk source depth (i + 1) keys' current' n'
          | _ => None
          end
      end
  end.

(** The node the loop of [GetErr source path] is at when it turns to the
    segment of index [n]. *)
Definition current_at (source : gomap any) (path : string) (n : nat)
  : option any :=
  let keys := Split path "." in
  walk source (Z.of_nat (length keys) - 1) 0 keys (VMap source) n.

(** The segment of index [n] is the last one. *)
Definition terminal (path : string) (n : nat) : Prop :=
  S n = length (Split path ".").

(** The node the path resolves to: [current] after the [switch] of the
    last iteration, which the type assertion is applied to. *)
Definition resolves_to (source : gomap any) (path : string) (v : any)
  : Prop :=
  exists (n : nat) (k : string) (c : any),
    terminal path n /\
    Split path "." !! n = Some k /\
    current_at source path n = Some c /\
    switch source (Z.of_nat n) (Z.of_nat n) k c = Done (inl v).

(** What the terminal segment returns for the resolved node. *)
Definition asserted {T : Type} `{!GoType T} (v : any) : T * option error :=
  match type_assert v with
  | Some result => (result, None)
  | None => (zero_value, Some (Errorf "%w: '%T'" ErrUnexpectedType [v]))
  end.

(** A node that is neither a [map[string]any] nor a [[]any]. *)
Definition is_leaf (c : any) : Prop :=
  match c with
  | VMap _ | VSlice _ => False
  | _ => True
  end.

(** The conversion to [R] and back to the type of [x] gives a value equal
    to [x]. *)
Definition round_trips `{!Runtime} (R : numkind) (x : number) : bool :=
  num_eqb (convert (kind_of x) (convert R x)) x.

(** The numeric types the type switch of [asNumberType] lists: all of
    [number] but [uintptr]. *)
Definition supported (x : number) : Prop := kind_of x <> KInt t_uintptr.

(** [without] is the variant of [with_err] that drops the error: it
    returns the value [with_err] returns when there is no error, and
    [zero] when there is one. *)
Definition default_variant {A : Type} (with_err : go (A * option error))
  (without : go A) (zero : A) : Prop :=
  forall (v : A) (err : option error),
    with_err = Done (v, err) ->
    match err with
    | None => without = Done v
    | Some _ => without = Done zero
    end.

(** The outcome of the iteration at which the loop stops, from the
    outcome of its [switch]. *)
Definition stop_result {T : Type} `{!GoType T} (r : go (any + error))
  : go (T * option error) :=
  match r with
  | Panic msg => Panic msg
  | Done (inr e) => Done (zero_value, Some e)
  | Done (inl v) => Done (asserted v)
  end.

(** Following the segments from a node, each index checked against the
    slice it indexes: a key at a mapping, an index at a slice, and at a
    leaf nothing further but one last segment, which stays at the leaf. *)
Fixpoint follow (keys : list string) (current : any) : option any :=
  match keys with
  | [] => Some current
  | k :: keys' =>
      match current with
      | VMap c =>
          match table_of c !! k with
          | Some v => follow keys' v
          | None => None
          end
      | VSlice c =>
          match Atoi k with
          | Some idx =>
              if idx <? 0 then None
              else match elems_of c !! Z.to_nat idx with
                   | Some v => follow keys' v
                   | None => None
                   end
          | None => None
          end
      | _ => match keys' with [] => Some current | _ :: _ => None end
      end
  end.

(** ** The earlier revision, [mapreader.go] *)

(** [mapreader.go] holds an earlier revision of the package: [GetErr] is
    the same function; [IntErr] and [Float64Err] call [asNumberType]
    themselves, whose type switch lists the floats and the signed
    integers only; [MapStrAnyErr] is [GetErr[map[string]any]]. *)
Module Earlier.
Section Coercion.
Context `{!Runtime}.

Definition Get {T : Type} `{!GoType T} (source : gomap any) (path : string)
  : go T :=
  '(result, _) ← GetErr source path;
  Done result.

Definition BoolErr (source : gomap any) (path : string)
  : go (bool * option error) :=
  GetErr (T := bool) source path.

Definition Bool (source : gomap any) (path : string) : go bool :=
  '(result, _) ← BoolErr source path;
  Done result.

Definition convertNumber (R : numkind) (x : number)
  : number * option error :=
  let converted := convert R x in
  if num_eqb (convert (kind_of x) converted) x then (converted, None)
  else
    let nilResult := zero_num R in
    (nilResult,
     Some (Errorf
             "%w: %T value '%v' cannot be converted to and equal value of type %T"
             ErrUnableToConvert [VNum x; VNum x; VNum nilResult])).

Definition asNumberType (R : numkind) (v : any) : number * option error :=
  match v with
  | VNum (NumFloat t_float64 _ as r) => convertNumber R r
  | VNum (NumFloat t_float32 _ as r) => convertNumber R r
  | VNum (NumInt t_int _ as r) => convertNumber R r
  | VNum (NumInt t_int8 _ as r) => convertNumber R r
  | VNum (NumInt t_int16 _ as r) => convertNumber R r
  | VNum (NumInt t_int32 _ as r) => convertNumber R r
  | VNum (NumInt t_int64 _ as r) => convertNumber R r
  | r =>
      (zero_num R,
       Some (Errorf "%w: %T is not a supported numeric type"
               ErrUnexpectedType [r]))
  end.

Definition Float64Err (source : gomap any) (path : string)
  : go (number * option error) :=
  '(result, err) ← GetErr (T := any) source path;
  match err with
  | Some e => Done (zero_num (KFloat t_float64), Some e)
  | None => Done (asNumberType (KFloat t_float64) result)
  end.

Definition Float64 (source : gomap any) (path : string) : go number :=
  '(result, _) ← Float64Err source path;
  Done result.

Definition IntErr (source : gomap any) (path : string)
  : go (number * option error) :=
  '(result, err) ← GetErr (T := any) source path;
  match err with
  | Some e => Done (zero_num (KInt t_int), Some e)
  | None => Done (asNumberType (KInt t_int) result)
  end.

Definition Int (source : gomap any) (path : string) : go number :=
  '(result, _) ← IntErr source path;
  Done result.

Definition StrErr (source : gomap any) (path : string)
  : go (string * option error) :=
  GetErr (T := string) source path.

Definition Str (source : gomap any) (path : string) : go string :=
  '(result, _) ← StrErr source path;
  Done result.

Definition MapStrAnyErr (source : gomap any) (path : string)
  : go (gomap any * option error) :=
  GetErr (T := gomap any) source path.

Definition MapStrAny (source : gomap any) (path : string) : go (gomap any) :=
  '(result, _) ← MapStrAnyErr source path;
  Done result.
End Coercion.
End Earlier.

(** Two calls end the same way: the same panic, or the same value and an
    error wrapping the same sentinel (or none). *)
Definition same_outcome {A : Type} (a b : go (A * option error)) : Prop :=
  match a, b with
  | Done (x, e), Done (y, e') => x = y /\ Unwrap <$> e = Unwrap <$> e'
  | Panic m, Panic m' => m = m'
  | _, _ => False
  end.

(** ** The trees of the documented examples *)

Definition tree_deep : gomap any :=
  obj [("a", arr [VMap (obj [("b",
         VMap (obj [("c", arr [f64 0 0; f64 1 0; f64 2 0])]))])])].

Definition tree_array : gomap any := obj [("a", arr [f64 0 0; f64 1 0; f64 2 0])].

Definition tree_one_elem : gomap any := obj [("a", arr [VString "x"])].

Definition tree_two_keys : gomap any :=
  obj [("a", arr [VString "x"]); ("b", VBool true)].

Definition tree_int_key : gomap any :=
  obj [("a", VMap (obj [("2", VString "2_val")]))].

Definition tree_leaf : gomap any := obj [("a", VString "b")].

Definition tree_empty_key : gomap any :=
  obj [("a", VMap (obj [("", VMap (obj [("b", VString "v")]))]))].

Definition tree_null : gomap any := obj [("a", Nil)].

(** * Properties *)

(** ** The loop *)

Section Loop.
Context {T : Type} `{!GoType T}.

Lemma range_keys_walk (source : gomap any) (depth : Z) (n : nat) :
  forall (i : Z) (keys : list string) (current c : any),
    walk source depth i keys current n = Some c ->
    range_keys (T := T) source depth i keys current =
    range_keys source depth (i + Z.of_nat n) (drop n keys) c.
Proof.
  induction n as [|n IH]; intros i keys current c Hw.
  - simpl in Hw. injection Hw as <-. by rewrite drop_0, Z.add_0_r.
  - destruct keys as [|k keys']; [discriminate|]. simpl in Hw.
    destruct (switch source depth i k current) as [[c'|e]|msg] eqn:Hs;
      try discriminate.
    destruct (i =? depth) eqn:Hi; [discriminate|].
    simpl. rewrite Hs. simpl. rewrite Hi.
    rewrite (IH _ _ _ _ Hw). f_equal. lia.
Qed.

(** One iteration, from the node the loop is at. *)
Lemma GetErr_at (source : gomap any) (path : string) (n : nat) (k : string)
  (c : any) :
  current_at source path n = Some c ->
  Split path "." !! n = Some k ->
  let depth := Z.of_nat (length (Split path ".")) - 1 in
  GetErr (T := T) source path =
  range_keys source depth (Z.of_nat n) (k :: drop (S n) (Split path ".")) c.
Proof.
  intros Hc Hk depth. unfold GetErr, current_at in *.
  rewrite (range_keys_walk _ _ _ _ _ _ _ Hc).
  by rewrite (drop_S _ _ _ Hk).
Qed.

Lemma GetErr_at_error (source : gomap any) (path : string) (n : nat)
  (k : string) (c : any) (e : error) :
  current_at source path n = Some c ->
  Split path "." !! n = Some k ->
  switch source (Z.of_nat (length (Split path ".")) - 1) (Z.of_nat n) k c
    = Done (inr e) ->
  GetErr (T := T) source path = Done (zero_value, Some e).
Proof.
  intros Hc Hk Hs. rewrite (GetErr_at _ _ _ _ _ Hc Hk). simpl.
  by rewrite Hs.
Qed.

Lemma GetErr_at_panic (source : gomap any) (path : string) (n : nat)
  (k : string) (c : any) (msg : string) :
  current_at source path n = Some c ->
  Split path "." !! n = Some k ->
  switch source (Z.of_nat (length (Split path ".")) - 1) (Z.of_nat n) k c
    = Panic msg ->
  GetErr (T := T) source path = Panic msg.
Proof.
  intros Hc Hk Hs. rewrite (GetErr_at _ _ _ _ _ Hc Hk). simpl.
  by rewrite Hs.
Qed.

Lemma GetErr_at_terminal (source : gomap any) (path : string) (n : nat)
  (k : string) (c c' : any) :
  current_at source path n = Some c ->
  Split path "." !! n = Some k ->
  terminal path n ->
  switch source (Z.of_nat n) (Z.of_nat n) k c = Done (inl c') ->
  GetErr (T := T) source path = Done (asserted c').
Proof.
  unfold terminal. intros Hc Hk Ht Hs. rewrite (GetErr_at _ _ _ _ _ Hc Hk).
  replace (Z.of_nat (length (Split path ".")) - 1) with (Z.of_nat n) by lia.
  simpl. rewrite Hs. simpl. rewrite Z.eqb_refl. unfold asserted.
  by destruct (type_assert c').
Qed.
End Loop.

Lemma walk_cons (source : gomap any) (depth i : Z) (k : string)
  (keys : list string) (current : any) (n : nat) :
  walk source depth i (k :: keys) current (S n) =
  match switch source depth i k current with
  | Done (inl current') =>
      if i =? depth then None else walk source depth (i + 1) keys current' n
  | _ => None
  end.
Proof. reflexivity. Qed.

(** The loop of [walk], one iteration further. *)
Lemma walk_S (source : gomap any) (depth : Z) (k : string) (c c' : any)
  (n : nat) :
  forall (i : Z) (keys : list string) (current : any),
    walk source depth i keys current n = Some c ->
    keys !! n = Some k ->
    i + Z.of_nat n <> depth ->
    switch source depth (i + Z.of_nat n) k c = Done (inl c') ->
    walk source depth i keys current (S n) = Some c'.
Proof.
  induction n as [|n IH]; intros i keys current Hw Hk Hne Hs.
  - destruct keys as [|k0 keys]; [discriminate|].
    simpl in Hw, Hk. injection Hw as ->. injection Hk as ->.
    rewrite Z.add_0_r in Hs, Hne. rewrite walk_cons, Hs.
    by destruct (Z.eqb_spec i depth).
  - destruct keys as [|k0 keys]; [discriminate|].
    simpl in Hk. rewrite walk_cons in Hw. rewrite walk_cons.
    destruct (switch source depth i k0 current) as [[c0|e]|msg];
      try discriminate.
    destruct (i =? depth); [discriminate|].
    apply IH; try done; [lia|].
    by replace (i + 1 + Z.of_nat n) with (i + Z.of_nat (S n)) by lia.
Qed.

Lemma current_at_S (source : gomap any) (path : string) (n : nat) (k : string)
  (c c' : any) :
  current_at source path n = Some c ->
  Split path "." !! n = Some k ->
  ~ terminal path n ->
  switch source (Z.of_nat (length (Split path ".")) - 1) (Z.of_nat n) k c
    = Done (inl c') ->
  current_at source path (S n) = Some c'.
Proof.
  unfold terminal, current_at. intros Hc Hk Ht Hs.
  apply (walk_S _ _ k c); try done.
  apply lookup_lt_Some in Hk. lia.
Qed.

Lemma switch_leaf (source : gomap any) (depth i : Z) (k : string) (c : any) :
  is_leaf c ->
  switch source depth i k c =
  if negb (i =? depth) then
    Done (inr (Errorf "%w: last key was '%s'" ErrEndOfNestedStructures
                 [VString k]))
  else Done (inl c).
Proof. by destruct c. Qed.

Lemma terminal_depth (path : string) (n : nat) :
  terminal path n <-> Z.of_nat n = Z.of_nat (length (Split path ".")) - 1.
Proof. unfold terminal. lia. Qed.

Lemma Split_nonempty (s : string) (sep : ascii) : Split s sep <> [].
Proof.
  destruct s as [|c s]; simpl; [done|].
  destruct (Ascii.eqb c sep); [done|]. by destruct (Split s sep).
Qed.

(** ** Sequence indexing *)

(** C1 (not met by the code).  The bound an index is checked against is
    [len(source)], the number of keys of the top-level map, not the length
    of the slice being indexed.  On the documented lookups ["a.0.b.c.1"]
    in [{"a": [{"b": {"c": [0, 1, 2]}}]}] and ["a.2"] in
    [{"a": [0, 1, 2]}], where the index is within the indexed slice, the
    code returns [ErrIndexOutOfBounds] reporting the length 1; ["a.1"] in
    [{"a": ["x"]}] is rejected as it should be. *)
Theorem C1_index_checked_against_source_length :
  GetErr (T := any) tree_deep "a.0.b.c.1" =
    Done (Nil, Some (Errorf "%w: index '%d' but length '%d'"
                       ErrIndexOutOfBounds [boxInt 1; boxInt 1]))
  /\ GetErr (T := any) tree_array "a.2" =
    Done (Nil, Some (Errorf "%w: index '%d' but length '%d'"
                       ErrIndexOutOfBounds [boxInt 2; boxInt 1]))
  /\ GetErr (T := any) tree_one_elem "a.1" =
    Done (Nil, Some (Errorf "%w: index '%d' but length '%d'"
                       ErrIndexOutOfBounds [boxInt 1; boxInt 1])).
Proof. repeat split; vm_compute; reflexivity. Qed.

(** C2 (not met by the code).  With two keys in the top-level map
    the index 1 passes the check against [len(source)], and indexing the
    one-element slice under ["a"] panics: [GetErr] does not return. *)
Theorem C2_index_panics :
  GetErr (T := any) tree_two_keys "a.1" = Panic "index out of range"
  /\ current_at tree_two_keys "a.1" 1 = Some (arr [VString "x"])
  /\ len_map tree_two_keys = 2.
Proof. repeat split; vm_compute; reflexivity. Qed.

(** What the code does at a slice: the segment must parse as an [int],
    the index is checked against the length of [source], and the element
    access panics when the slice is shorter than that. *)
Lemma switch_slice (source : gomap any) (depth i : Z) (k : string)
  (c : slice any) (idx : Z) :
  Atoi k = Some idx ->
  switch source depth i k (VSlice c) =
  if (idx <? 0) || (idx >? len_map source - 1) then
    Done (inr (Errorf "%w: index '%d' but length '%d'" ErrIndexOutOfBounds
                 [boxInt idx; boxInt (len_map source)]))
  else match elems_of c !! Z.to_nat idx with
       | Some v => Done (inl v)
       | None => Panic "index out of range"
       end.
Proof.
  intros Hk. simpl. rewrite Hk.
  destruct ((idx <? 0) || (idx >? len_map source - 1)) eqn:Hb; [done|].
  apply orb_false_elim in Hb as [Hneg _]. unfold index. rewrite Hneg.
  by destruct (elems_of c !! Z.to_nat idx).
Qed.

(** Every tree and path: at a slice the index is rejected when it is
    negative or not below [len(source)], and the element access panics
    when the index passes that check and the slice is no longer than the
    index. *)
Lemma GetErr_index_bound {T : Type} `{!GoType T} (source : gomap any)
  (path : string) (n : nat) (k : string) (c : slice any) (idx : Z) :
  current_at source path n = Some (VSlice c) ->
  Split path "." !! n = Some k ->
  Atoi k = Some idx ->
  (idx < 0 \/ len_map source <= idx ->
   GetErr (T := T) source path =
     Done (zero_value,
           Some (Errorf "%w: index '%d' but length '%d'" ErrIndexOutOfBounds
                   [boxInt idx; boxInt (len_map source)])))
  /\ (0 <= idx < len_map source ->
      len_slice c <= idx ->
      GetErr (T := T) source path = Panic "index out of range").
Proof.
  intros Hc Hk Ha. split.
  - intros Hout. apply (GetErr_at_error _ _ _ _ _ _ Hc Hk).
    rewrite (switch_slice _ _ _ _ _ _ Ha).
    destruct (Z.ltb_spec idx 0); [done|].
    destruct (Z.gtb_spec idx (len_map source - 1)); [done|]. lia.
  - intros Hin Hlen. apply (GetErr_at_panic _ _ _ _ _ _ Hc Hk).
    rewrite (switch_slice _ _ _ _ _ _ Ha).
    destruct (Z.ltb_spec idx 0); [lia|].
    destruct (Z.gtb_spec idx (len_map source - 1)); [lia|]. simpl.
    rewrite lookup_ge_None_2; [done|]. unfold len_slice in Hlen. lia.
Qed.

(** ** Mapping keys *)

(** C6.  At a mapping the segment is looked up as a key, whatever it
    looks like: a missing key is [ErrKeyNotFound], a present one gives the
    next node (the resolved node at the last segment).  In
    [{"a": {"2": "2_val"}}] the path ["a.2"] gives the string ["2_val"],
    though ["2"] parses as an integer. *)
Theorem C6_mapping_segment_is_a_key :
  (forall (T : Type) (GT : GoType T) (source : gomap any) (path : string)
          (n : nat) (k : string) (c : gomap any),
      current_at source path n = Some (VMap c) ->
      Split path "." !! n = Some k ->
      (table_of c !! k = None ->
       GetErr (T := T) source path =
         Done (zero_value, Some (Errorf "%w: %s" ErrKeyNotFound [VString k])))
      /\ (forall v : any,
             table_of c !! k = Some v ->
             (terminal path n ->
              GetErr (T := T) source path = Done (asserted v))
             /\ (~ terminal path n ->
                 current_at source path (S n) = Some v)))
  /\ Atoi "2" = Some 2
  /\ GetErr (T := string) tree_int_key "a.2" = Done ("2_val", None).
Proof.
  split; [|split; vm_compute; reflexivity].
  intros T GT source path n k c Hc Hk. split.
  - intros Hnone. apply (GetErr_at_error _ _ _ _ _ _ Hc Hk).
    simpl. by rewrite Hnone.
  - intros v Hv. split; intros Ht.
    + apply (GetErr_at_terminal _ _ _ _ _ _ Hc Hk Ht). simpl. by rewrite Hv.
    + apply (current_at_S _ _ _ _ _ _ Hc Hk Ht). simpl. by rewrite Hv.
Qed.

Lemma C6_mapping_segment_is_a_key_witness :
  GetErr (T := string) tree_int_key "a.2" = Done (asserted (VString "2_val")).
Proof.
  refine (proj1 (proj2 (proj1 C6_mapping_segment_is_a_key string _ tree_int_key
                          "a.2" 1%nat "2"
                          (obj [("2", VString "2_val")]) _ _)
                   (VString "2_val") _) _);
    vm_compute; reflexivity.
Defined.

(** ** Leaves *)

(** C7.  When the loop is at a node that is neither a mapping nor a
    sequence and segments remain after the current one, [GetErr] fails
    with [ErrEndOfNestedStructures] carrying the current segment; at the
    last segment it applies the type assertion to that node instead, so
    the only error then is [ErrUnexpectedType].  ["a.b.c"] in [{"a": "b"}]
    fails at segment ["b"]; ["a"] gives the string ["b"], and so does
    ["a.b"], where the loop is at the string when it turns to the last
    segment. *)
Theorem C7_end_of_nested_structures :
  (forall (T : Type) (GT : GoType T) (source : gomap any) (path : string)
          (n : nat) (k : string) (c : any),
      current_at source path n = Some c ->
      Split path "." !! n = Some k ->
      is_leaf c ->
      (~ terminal path n ->
       GetErr (T := T) source path =
         Done (zero_value,
               Some (Errorf "%w: last key was '%s'" ErrEndOfNestedStructures
                       [VString k])))
      /\ (terminal path n ->
          GetErr (T := T) source path = Done (asserted c)
          /\ forall (r : T) (e : error),
               GetErr (T := T) source path = Done (r, Some e) ->
               Unwrap e = ErrUnexpectedType))
  /\ GetErr (T := string) tree_leaf "a.b.c" =
       Done ("", Some (Errorf "%w: last key was '%s'" ErrEndOfNestedStructures
                         [VString "b"]))
  /\ GetErr (T := string) tree_leaf "a" = Done ("b", None)
  /\ GetErr (T := string) tree_leaf "a.b" = Done ("b", None).
Proof.
  split; [|repeat split; vm_compute; reflexivity].
  intros T GT source path n k c Hc Hk Hleaf. split; intros Ht.
  - apply (GetErr_at_error _ _ _ _ _ _ Hc Hk).
    rewrite switch_leaf by done.
    rewrite terminal_depth in Ht. by destruct (Z.eqb_spec (Z.of_nat n)
      (Z.of_nat (length (Split path ".")) - 1)).
  - assert (Hg : GetErr (T := T) source path = Done (asserted c)).
    { apply (GetErr_at_terminal _ _ _ _ _ _ Hc Hk Ht).
      rewrite switch_leaf by done. by rewrite Z.eqb_refl. }
    split; [done|]. intros r e. rewrite Hg. unfold asserted.
    destruct (type_assert c); intros [= <- <-]; reflexivity.
Qed.

Lemma C7_end_of_nested_structures_witness :
  GetErr (T := string) tree_leaf "a.b.c" =
    Done (zero_value,
          Some (Errorf "%w: last key was '%s'" ErrEndOfNestedStructures
                  [VString "b"])).
Proof.
  refine (proj1 (proj1 C7_end_of_nested_structures string _ tree_leaf "a.b.c"
                   1%nat "b" (VString "b") _ _ _) _).
  - vm_compute; reflexivity.
  - vm_compute; reflexivity.
  - exact I.
  - unfold terminal. simpl. lia.
Defined.

(** ** Empty segments *)

(** C9, as the code has it.  An empty segment is a segment like any
    other.  At a sequence it does not parse as an integer and [GetErr]
    fails with [ErrNonIntegerSliceAccess].  At a mapping it is looked up
    as the key [""]: [ErrKeyNotFound] when the mapping has no such key,
    and the value under it becomes the next node when it has one. *)
Theorem C9_empty_segment :
  forall (T : Type) (GT : GoType T) (source : gomap any) (path : string)
         (n : nat) (c : any),
    current_at source path n = Some c ->
    Split path "." !! n = Some "" ->
    (forall s : slice any,
        c = VSlice s ->
        GetErr (T := T) source path =
          Done (zero_value,
                Some (Errorf "%w: lookup was '%s'" ErrNonIntegerSliceAccess
                        [VString ""])))
    /\ (forall m : gomap any,
           c = VMap m ->
           table_of m !! "" = None ->
           GetErr (T := T) source path =
             Done (zero_value,
                   Some (Errorf "%w: %s" ErrKeyNotFound [VString ""])))
    /\ (forall (m : gomap any) (v : any),
           c = VMap m ->
           table_of m !! "" = Some v ->
           (terminal path n ->
            GetErr (T := T) source path = Done (asserted v))
           /\ (~ terminal path n -> current_at source path (S n) = Some v)).
Proof.
  intros T GT source path n c Hc Hk. split; [|split].
  - intros s ->. by apply (GetErr_at_error _ _ _ _ _ _ Hc Hk).
  - intros m -> Hnone. apply (GetErr_at_error _ _ _ _ _ _ Hc Hk).
    simpl. by rewrite Hnone.
  - intros m v -> Hv. split; intros Ht.
    + apply (GetErr_at_terminal _ _ _ _ _ _ Hc Hk Ht). simpl. by rewrite Hv.
    + apply (current_at_S _ _ _ _ _ _ Hc Hk Ht). simpl. by rewrite Hv.
Qed.

Lemma C9_empty_segment_witness :
  GetErr (T := string) (obj [("a", VMap (obj [("b", VString "v")]))]) "a..b" =
    Done (zero_value, Some (Errorf "%w: %s" ErrKeyNotFound [VString ""])).
Proof.
  refine (proj1 (proj2 (C9_empty_segment string _
                          (obj [("a", VMap (obj [("b", VString "v")]))])
                          "a..b" 1%nat (VMap (obj [("b", VString "v")])) _ _))
            (obj [("b", VString "v")]) _ _);
    vm_compute; reflexivity.
Defined.

(** In [{"a": {"": {"b": "v"}}}] the path ["a..b"] has the empty segment
    at index 1, the loop is at a mapping there, and the lookup succeeds
    with ["v"]: the empty segment is the key [""] of that mapping.  So an
    empty segment at a mapping does not always fail with
    [ErrKeyNotFound]. *)
Lemma C9_empty_key_resolves :
  (Split "a..b" "." = ["a"; ""; "b"]
   /\ current_at tree_empty_key "a..b" 1 =
        Some (VMap (obj [("", VMap (obj [("b", VString "v")]))]))
   /\ GetErr (T := string) tree_empty_key "a..b" = Done ("v", None))
  /\ ~ (forall (source : gomap any) (path : string) (n : nat) (m : gomap any),
          current_at source path n = Some (VMap m) ->
          Split path "." !! n = Some "" ->
          exists (r : string) (e : error),
            GetErr (T := string) source path = Done (r, Some e)
            /\ Unwrap e = ErrKeyNotFound).
Proof.
  assert (Hc : current_at tree_empty_key "a..b" 1 =
               Some (VMap (obj [("", VMap (obj [("b", VString "v")]))])))
    by (vm_compute; reflexivity).
  assert (Hg : GetErr (T := string) tree_empty_key "a..b" = Done ("v", None))
    by (vm_compute; reflexivity).
  split; [repeat split; try done; vm_compute; reflexivity|].
  intros Hall.
  destruct (Hall tree_empty_key "a..b" 1%nat _ Hc eq_refl) as (r & e & He & _).
  rewrite Hg in He. discriminate.
Qed.

(** ** Null *)

Section Null.
Context {T : Type} `{!GoType T}.

Lemma asserted_Nil :
  asserted (T := T) Nil =
    (zero_value, Some (Errorf "%w: '%T'" ErrUnexpectedType [Nil])).
Proof. unfold asserted. by rewrite type_assert_nil. Qed.

Lemma GetErr_resolves (source : gomap any) (path : string) (v : any) :
  resolves_to source path v ->
  GetErr (T := T) source path = Done (asserted v).
Proof.
  intros (n & k & c & Ht & Hk & Hc & Hs).
  by apply (GetErr_at_terminal _ _ _ _ _ _ Hc Hk Ht).
Qed.

(** A result without an error is a successful type assertion. *)
Lemma range_keys_success (source : gomap any) (depth : Z)
  (keys : list string) :
  forall (i : Z) (current : any) (r : T),
    depth = i + Z.of_nat (length keys) - 1 ->
    keys <> [] ->
    range_keys source depth i keys current = Done (r, None) ->
    exists c : any, type_assert c = Some r.
Proof.
  induction keys as [|k keys IH]; intros i current r Hd Hne Hr; [done|].
  simpl in Hr.
  destruct (switch source depth i k current) as [[c|e]|msg]; simpl in Hr;
    try discriminate.
  destruct (Z.eqb_spec i depth) as [->|Hi].
  - destruct (type_assert c) as [r'|] eqn:Ha; [|discriminate].
    injection Hr as ->. by exists c.
  - apply (IH (i + 1) c r); [simpl in Hd; lia| |done].
    intros ->. simpl in Hd. lia.
Qed.

Lemma GetErr_success (source : gomap any) (path : string) (r : T) :
  GetErr source path = Done (r, None) ->
  exists c : any, type_assert c = Some r.
Proof.
  unfold GetErr. apply range_keys_success; [lia|apply Split_nonempty].
Qed.
End Null.

(** C10.  When the path resolves to the nil interface, the type
    assertion fails for every [T], [any] included: [GetErr] and each
    function built on it return [ErrUnexpectedType].  On any tree and
    path, a [GetErr[any]] that returns without an error does not return
    nil. *)
Theorem C10_null_is_unexpected :
  (forall (RT : Runtime) (source : gomap any) (path : string),
      resolves_to source path Nil ->
      let unexpected := Some (Errorf "%w: '%T'" ErrUnexpectedType [Nil]) in
      (forall (T : Type) (GT : GoType T),
          GetErr (T := T) source path = Done (zero_value, unexpected))
      /\ GetErr (T := any) source path = Done (Nil, unexpected)
      /\ StrErr source path = Done ("", unexpected)
      /\ BoolErr source path = Done (false, unexpected)
      /\ BytesErr source path = Done (SliceNil, unexpected)
      /\ (forall R : numkind,
             NumberErr R source path = Done (zero_num R, unexpected))
      /\ IntErr source path = Done (NumInt t_int 0, unexpected)
      /\ Float64Err source path =
           Done (NumFloat t_float64 (S754_zero false), unexpected)
      /\ (forall (V : Type) (GV : GoType V),
             SliceErr (V := V) source path = Done (SliceNil, unexpected))
      /\ (forall (V : Type) (GV : GoType V),
             MapErr (V := V) source path = Done (MapNil, unexpected)))
  /\ (forall (source : gomap any) (path : string) (v : any),
         GetErr (T := any) source path = Done (v, None) -> v <> Nil).
Proof.
  split.
  - intros RT source path Hres unexpected.
    assert (Hg : forall (T : Type) (GT : GoType T),
               GetErr (T := T) source path = Done (zero_value, unexpected)).
    { intros T GT. rewrite (GetErr_resolves _ _ _ Hres).
      by rewrite asserted_Nil. }
    split; [exact Hg|].
    split; [exact (Hg any _)|].
    split; [exact (Hg string _)|].
    split; [exact (Hg bool _)|].
    split; [unfold BytesErr; by rewrite (Hg any _)|].
    assert (Hn : forall R : numkind,
               NumberErr R source path = Done (zero_num R, unexpected)).
    { intros R. unfold NumberErr. by rewrite (Hg any _). }
    split; [exact Hn|].
    split; [exact (Hn (KInt t_int))|].
    split; [exact (Hn (KFloat t_float64))|].
    split; [intros V GV; unfold SliceErr; by rewrite (Hg (slice any) _)|].
    intros V GV. unfold MapErr. by rewrite (Hg (gomap any) _).
  - intros source path v Hv. apply GetErr_success in Hv as [c Hc].
    destruct c; simpl in Hc; congruence.
Qed.

Lemma C10_null_is_unexpected_witness :
  GetErr (T := any) tree_null "a" =
    Done (Nil, Some (Errorf "%w: '%T'" ErrUnexpectedType [Nil])).
Proof.
  refine (proj1 (proj2 (proj1 C10_null_is_unexpected sample_runtime tree_null
                          "a" _))).
  exists 0%nat, "a", (VMap tree_null).
  repeat split; vm_compute; reflexivity.
Defined.

(** ** Byte slices *)

(** C8.  On a resolved value [BytesErr] returns a [[]byte] as it is and
    the bytes of a string, one per byte of the string, and fails with
    [ErrUnableToConvert] on a value of any other dynamic type. *)
Theorem C8_bytes :
  (forall (source : gomap any) (path : string) (v : any),
      GetErr (T := any) source path = Done (v, None) ->
      (forall b : slice Byte.byte,
          v = VBytes b -> BytesErr source path = Done (b, None))
      /\ (forall s : string,
             v = VString s ->
             BytesErr source path = Done (SliceOf (list_byte_of_string s), None)
             /\ string_of_list_byte (list_byte_of_string s) = s)
      /\ ((forall b : slice Byte.byte, v <> VBytes b) ->
          (forall s : string, v <> VString s) ->
          BytesErr source path =
            Done (SliceNil,
                  Some (Errorf "%w: %v cannot be converted to []byte"
                          ErrUnableToConvert [v]))))
  /\ BytesErr (obj [("a", VString "value")]) "a" =
       Done (SliceOf [Byte.x76; Byte.x61; Byte.x6c; Byte.x75; Byte.x65], None)
  /\ BytesErr (obj [("a", VBool true)]) "a" =
       Done (SliceNil,
             Some (Errorf "%w: %v cannot be converted to []byte"
                     ErrUnableToConvert [VBool true])).
Proof.
  split; [|split; vm_compute; reflexivity].
  intros source path v Hg. unfold BytesErr. rewrite Hg. simpl.
  split; [|split].
  - by intros b ->.
  - intros s ->. split; [done|]. apply string_of_list_byte_of_string.
  - intros Hb Hs. destruct v; try done.
    + by destruct (Hs s).
    + by destruct (Hb b).
Qed.

Lemma C8_bytes_witness :
  BytesErr (obj [("a", VString "value")]) "a" =
    Done (SliceOf (list_byte_of_string "value"), None).
Proof.
  refine (proj1 (proj1 (proj2 (proj1 C8_bytes (obj [("a", VString "value")])
                                 "a" (VString "value") _))
                   "value" _));
    vm_compute; reflexivity.
Defined.

(** ** Numbers *)

Lemma asNumberType_supported `{!Runtime} (R : numkind) (x : number) :
  supported x -> asNumberType R (VNum x) = convertNumber R x.
Proof.
  unfold supported. destruct x as [[]|[]]; simpl; congruence.
Qed.

Lemma convertNumber_round_trips `{!Runtime} (R : numkind) (x : number) :
  convertNumber R x =
  if round_trips R x then (convert R x, None)
  else (zero_num R,
        Some (Errorf
                "%w: %T value '%v' cannot be converted to an equal value of type %T"
                ErrUnableToConvert [VNum x; VNum x; VNum (zero_num R)])).
Proof. reflexivity. Qed.

(** C3.  On a resolved number [x] of a supported type, [NumberErr[R]]
    returns [R(x)] without an error exactly when converting [R(x)] back to
    the type of [x] gives a value equal to [x], and fails with
    [ErrUnableToConvert] otherwise; [IntErr] and [Float64Err] are
    [NumberErr[int]] and [NumberErr[float64]].  The float64 1 is the int 1;
    the float64 1.5 is no int. *)
Theorem C3_numeric_round_trip :
  forall RT : Runtime,
    (forall (source : gomap any) (path : string) (x : number) (R : numkind),
        GetErr (T := any) source path = Done (VNum x, None) ->
        supported x ->
        (NumberErr R source path = Done (convert R x, None) <->
         round_trips R x = true)
        /\ (round_trips R x = false ->
            NumberErr R source path =
              Done (zero_num R,
                    Some (Errorf
                            "%w: %T value '%v' cannot be converted to an equal value of type %T"
                            ErrUnableToConvert
                            [VNum x; VNum x; VNum (zero_num R)])))
        /\ IntErr source path = NumberErr (KInt t_int) source path
        /\ Float64Err source path = NumberErr (KFloat t_float64) source path)
    /\ IntErr (obj [("a", f64 1 0)]) "a" = Done (NumInt t_int 1, None)
    /\ IntErr (obj [("a", f64 3 (-1))]) "a" =
         Done (NumInt t_int 0,
               Some (Errorf
                       "%w: %T value '%v' cannot be converted to an equal value of type %T"
                       ErrUnableToConvert
                       [f64 3 (-1); f64 3 (-1); VNum (NumInt t_int 0)])).
Proof.
  intros RT. split; [|split; vm_compute; reflexivity].
  intros source path x R Hg Hsup.
  assert (Hn : NumberErr R source path = Done (convertNumber R x)).
  { unfold NumberErr. rewrite Hg.
    change (Done (asNumberType R (VNum x)) = Done (convertNumber R x)).
    by rewrite asNumberType_supported. }
  rewrite Hn, convertNumber_round_trips.
  destruct (round_trips R x); repeat split; try done; intros [=].
Qed.

Lemma C3_numeric_round_trip_witness :
  NumberErr (KInt t_int) (obj [("a", f64 1 0)]) "a" =
    Done (convert (KInt t_int) (NumFloat t_float64 (S754_finite false 4503599627370496 (-52))), None).
Proof.
  refine (proj2 (proj1 (proj1 (C3_numeric_round_trip sample_runtime)
                          (obj [("a", f64 1 0)]) "a"
                          (NumFloat t_float64
                             (S754_finite false 4503599627370496 (-52)))
                          (KInt t_int) _ _)) _).
  - vm_compute; reflexivity.
  - unfold supported. simpl. discriminate.
  - vm_compute; reflexivity.
Defined.

(** ** Containers *)

Section Elements_facts.
Context {V : Type} `{!GoType V}.

Lemma asSliceType_range_ok (rest : list any) :
  forall (front vs : list V),
    Forall2 (fun v r => type_assert v = Some r) rest vs ->
    asSliceType_range (length front) rest
      (front ++ replicate (length rest) zero_value)
    = (SliceOf (front ++ vs), None).
Proof.
  induction rest as [|v rest IH]; intros front vs Hall.
  - apply Forall2_nil_inv_l in Hall as ->. simpl. by rewrite !app_nil_r.
  - apply Forall2_cons_inv_l in Hall as (r & vs' & Hv & Hall & ->).
    simpl. rewrite Hv.
    rewrite insert_app_r_alt by lia. rewrite Nat.sub_diag. simpl.
    specialize (IH (front ++ [r]) vs' Hall).
    rewrite length_app in IH. simpl in IH.
    rewrite Nat.add_1_r, <- !app_assoc in IH. exact IH.
Qed.

Lemma asSliceType_range_fail (pre : list any) (v : any) (post : list any) :
  forall (i : nat) (result : list V),
    Forall (fun u => is_Some (type_assert (T := V) u)) pre ->
    type_assert (T := V) v = None ->
    asSliceType_range i (pre ++ v :: post) result
    = (SliceNil,
       Some (Errorf "%w: %v cannot be converted to %T" ErrUnableToConvert
               [v; to_any (zero_value : V)])).
Proof.
  induction pre as [|u pre IH]; intros i result Hpre Hv; simpl.
  - by rewrite Hv.
  - apply Forall_cons in Hpre as [[r Hr] Hpre]. rewrite Hr. by apply IH.
Qed.

Lemma asSliceType_range_error (rest : list any) :
  forall (i : nat) (result : list V) (r : slice V) (e : error),
    asSliceType_range i rest result = (r, Some e) -> r = SliceNil.
Proof.
  induction rest as [|v rest IH]; intros i result r e; simpl.
  - discriminate.
  - destruct (type_assert v); [apply IH|]. by intros [= <- _].
Qed.

(** The loop of [asMapType] on entries with distinct keys that all
    assert: the entries are added to the result. *)
Lemma asMapType_range_ok (rest : list (string * any)) :
  forall acc : gmap string V,
    NoDup rest.*1 ->
    Forall (fun kv => is_Some (type_assert (T := V) kv.2)) rest ->
    exists res : gmap string V,
      asMapType_range rest acc = (MapOf res, None)
      /\ forall k : string,
          res !! k =
          match (list_to_map rest : gmap string any) !! k with
          | Some v => type_assert v
          | None => acc !! k
          end.
Proof.
  induction rest as [|[i v] rest IH]; intros acc Hnd Hall.
  - exists acc. split; [done|]. intros k.
    by rewrite list_to_map_nil, lookup_empty.
  - apply NoDup_cons in Hnd as [Hi Hnd].
    apply Forall_cons in Hall as [[r Hr] Hall]. simpl in Hr.
    destruct (IH (<[i := r]> acc) Hnd Hall) as (res & Hres & Hlook).
    exists res. split; [simpl; by rewrite Hr|].
    intros k. rewrite Hlook, list_to_map_cons.
    destruct (decide (i = k)) as [->|Hne].
    + rewrite lookup_insert_eq.
      rewrite (not_elem_of_list_to_map_1 (M := gmap string)) by done.
      by rewrite lookup_insert_eq.
    + rewrite !lookup_insert_ne by done. done.
Qed.

Lemma asMapType_range_fail (rest : list (string * any)) :
  forall acc : gmap string V,
    Exists (fun kv => type_assert (T := V) kv.2 = None) rest ->
    exists (k : string) (v : any),
      (k, v) ∈ rest /\ type_assert (T := V) v = None
      /\ asMapType_range rest acc
         = (MapNil,
            Some (Errorf "%w: %v cannot be converted to %T"
                    ErrUnableToConvert [v; to_any (zero_value : V)])).
Proof.
  induction rest as [|[i v] rest IH]; intros acc Hex.
  - by apply Exists_nil in Hex.
  - simpl. destruct (type_assert v) as [r|] eqn:Hv.
    + apply Exists_cons in Hex as [Hex|Hex]; [simpl in Hex; congruence|].
      destruct (IH (<[i := r]> acc) Hex) as (k & v' & Hin & Hv' & Hres).
      exists k, v'. split; [by right|]. done.
    + exists i, v. split; [by left|]. done.
Qed.

Lemma asMapType_range_error (rest : list (string * any)) :
  forall (acc : gmap string V) (r : gomap V) (e : error),
    asMapType_range rest acc = (r, Some e) -> r = MapNil.
Proof.
  induction rest as [|[i v] rest IH]; intros acc r e; simpl.
  - discriminate.
  - destruct (type_assert v); [apply IH|]. by intros [= <- _].
Qed.
End Elements_facts.

Section Containers.
Context `{!Runtime} {V : Type} `{!GoType V}.

Lemma map_range_lookup {A : Type} (t : gmap string A) (k : string) (v : A) :
  (k, v) ∈ map_range t <-> t !! k = Some v.
Proof. by rewrite (map_range_perm A t), elem_of_map_to_list. Qed.

Lemma asSliceType_ok (input : slice any) (vs : list V) :
  Forall2 (fun v r => type_assert v = Some r) (elems_of input) vs ->
  asSliceType input = (SliceOf vs, None).
Proof.
  intros Hall. unfold asSliceType.
  exact (asSliceType_range_ok (elems_of input) [] vs Hall).
Qed.

Lemma asSliceType_fail (input : slice any) (pre : list any) (v : any)
  (post : list any) :
  elems_of input = pre ++ v :: post ->
  Forall (fun u => is_Some (type_assert (T := V) u)) pre ->
  type_assert (T := V) v = None ->
  asSliceType (R := V) input
  = (SliceNil,
     Some (Errorf "%w: %v cannot be converted to %T" ErrUnableToConvert
             [v; to_any (zero_value : V)])).
Proof.
  intros Hin Hpre Hv. unfold asSliceType. rewrite Hin.
  by apply asSliceType_range_fail.
Qed.

Lemma asMapType_ok (input : gomap any) :
  (forall (k : string) (v : any),
      table_of input !! k = Some v -> is_Some (type_assert (T := V) v)) ->
  asMapType (R := V) input
  = (MapOf (omap type_assert (table_of input)), None).
Proof.
  intros Hall. unfold asMapType.
  set (t := table_of input) in *.
  assert (Hnd : NoDup (map_range t).*1).
  { rewrite (map_range_perm any t). apply NoDup_fst_map_to_list. }
  destruct (asMapType_range_ok (V := V) (map_range t) ∅ Hnd)
    as (res & -> & Hlook).
  { apply Forall_forall. intros [k v] Hin. simpl.
    apply map_range_lookup in Hin. by apply (Hall k). }
  do 2 f_equal. apply map_eq. intros k.
  rewrite Hlook, lookup_omap.
  rewrite (list_to_map_proper (map_range t) (map_to_list t) Hnd)
    by apply map_range_perm.
  rewrite list_to_map_to_list.
  by destruct (t !! k).
Qed.

Lemma asMapType_fail (input : gomap any) (k : string) (v : any) :
  table_of input !! k = Some v ->
  type_assert (T := V) v = None ->
  exists (k' : string) (v' : any),
    table_of input !! k' = Some v' /\ type_assert (T := V) v' = None
    /\ asMapType (R := V) input
       = (MapNil,
          Some (Errorf "%w: %v cannot be converted to %T" ErrUnableToConvert
                  [v'; to_any (zero_value : V)])).
Proof.
  intros Hk Hv. unfold asMapType.
  destruct (asMapType_range_fail (V := V) (map_range (table_of input)) ∅)
    as (k' & v' & Hin & Hv' & Hres).
  { apply Exists_exists. exists (k, v). split; [|done].
    by apply map_range_lookup. }
  exists k', v'. split; [by apply map_range_lookup|]. done.
Qed.
End Containers.

(** C4.  [SliceErr] and [MapErr] convert all or nothing.  When every
    element of the resolved slice (every value of the resolved map)
    asserts to the element type, the result holds the asserted elements,
    in place (under the same keys).  When one does not, the loop stops at
    the first such element it visits and the result is the nil slice (the
    nil map) with [ErrUnableToConvert] for that element.
    [[true, "false", true]] as booleans fails. *)
Theorem C4_all_or_nothing :
  (forall (V : Type) (GV : GoType V) (source : gomap any) (path : string)
          (s : slice any),
      GetErr (T := slice any) source path = Done (s, None) ->
      (forall vs : list V,
          Forall2 (fun v r => type_assert v = Some r) (elems_of s) vs ->
          SliceErr (V := V) source path = Done (SliceOf vs, None))
      /\ (forall (pre : list any) (v : any) (post : list any),
             elems_of s = pre ++ v :: post ->
             Forall (fun u => is_Some (type_assert (T := V) u)) pre ->
             type_assert (T := V) v = None ->
             SliceErr (V := V) source path =
               Done (SliceNil,
                     Some (Errorf "%w: %v cannot be converted to %T"
                             ErrUnableToConvert
                             [v; to_any (zero_value : V)]))))
  /\ (forall (RT : Runtime) (V : Type) (GV : GoType V) (source : gomap any)
             (path : string) (m : gomap any),
         GetErr (T := gomap any) source path = Done (m, None) ->
         ((forall (k : string) (v : any),
              table_of m !! k = Some v -> is_Some (type_assert (T := V) v)) ->
          MapErr (V := V) source path =
            Done (MapOf (omap type_assert (table_of m)), None))
         /\ (forall (k : string) (v : any),
                table_of m !! k = Some v ->
                type_assert (T := V) v = None ->
                exists (k' : string) (v' : any),
                  table_of m !! k' = Some v'
                  /\ type_assert (T := V) v' = None
                  /\ MapErr (V := V) source path =
                       Done (MapNil,
                             Some (Errorf "%w: %v cannot be converted to %T"
                                     ErrUnableToConvert
                                     [v'; to_any (zero_value : V)]))))
  /\ SliceErr (V := bool)
       (obj [("a", arr [VBool true; VString "false"; VBool true])]) "a" =
       Done (SliceNil,
             Some (Errorf "%w: %v cannot be converted to %T" ErrUnableToConvert
                     [VString "false"; VBool false])).
Proof.
  split; [|split; [|vm_compute; reflexivity]].
  - intros V GV source path s Hg.
    assert (Hs : SliceErr (V := V) source path = Done (asSliceType s))
      by (unfold SliceErr; by rewrite Hg).
    rewrite Hs. split.
    + intros vs Hall. f_equal. by apply asSliceType_ok.
    + intros pre v post Hin Hpre Hv. f_equal.
      by apply (asSliceType_fail s pre v post).
  - intros RT V GV source path m Hg.
    assert (Hm : MapErr (V := V) source path = Done (asMapType m))
      by (unfold MapErr; by rewrite Hg).
    rewrite Hm. split.
    + intros Hall. f_equal. by apply asMapType_ok.
    + intros k v Hk Hv.
      destruct (asMapType_fail (V := V) m k v Hk Hv) as (k' & v' & ? & ? & ->).
      by exists k', v'.
Qed.

Lemma C4_all_or_nothing_witness :
  SliceErr (V := bool)
    (obj [("a", arr [VBool true; VString "false"; VBool true])]) "a" =
    Done (SliceNil,
          Some (Errorf "%w: %v cannot be converted to %T" ErrUnableToConvert
                  [VString "false"; to_any (zero_value : bool)]))
  /\ SliceErr (V := bool)
       (obj [("a", arr [VBool true; VBool false; VBool true])]) "a" =
       Done (SliceOf [true; false; true], None)
  /\ MapErr (V := bool) (obj [("a", VMap (obj [("b", VBool true)]))]) "a" =
       Done (MapOf (omap type_assert (table_of (obj [("b", VBool true)]))),
             None).
Proof.
  split; [|split].
  - refine (proj2 (proj1 C4_all_or_nothing bool _
                     (obj [("a", arr [VBool true; VString "false"; VBool true])])
                     "a" (SliceOf [VBool true; VString "false"; VBool true]) _)
              [VBool true] (VString "false") [VBool true] _ _ _).
    + vm_compute; reflexivity.
    + reflexivity.
    + repeat constructor. by exists true.
    + reflexivity.
  - refine (proj1 (proj1 C4_all_or_nothing bool _
                     (obj [("a", arr [VBool true; VBool false; VBool true])])
                     "a" (SliceOf [VBool true; VBool false; VBool true]) _)
              [true; false; true] _).
    + vm_compute; reflexivity.
    + repeat constructor.
  - refine (proj1 (proj1 (proj2 C4_all_or_nothing) sample_runtime bool _
                     (obj [("a", VMap (obj [("b", VBool true)]))]) "a"
                     (obj [("b", VBool true)]) _) _).
    + vm_compute; reflexivity.
    + intros k v Hk.
      destruct (decide (k = "b")) as [->|Hne].
      * vm_compute in Hk. injection Hk as <-. by exists true.
      * unfold obj, table_of in Hk. simpl in Hk.
        rewrite lookup_insert_ne in Hk by done.
        by rewrite lookup_empty in Hk.
Defined.

(** ** Default variants *)

Lemma range_keys_error {T : Type} `{!GoType T} (source : gomap any)
  (depth : Z) (keys : list string) :
  forall (i : Z) (current : any) (r : T) (e : error),
    range_keys source depth i keys current = Done (r, Some e) ->
    r = zero_value.
Proof.
  induction keys as [|k keys IH]; intros i current r e; simpl.
  - discriminate.
  - destruct (switch source depth i k current) as [[c|e']|msg]; simpl.
    + destruct (i =? depth); [|apply IH].
      destruct (type_assert c); [discriminate|]. by intros [= <- _].
    + by intros [= <- _].
    + discriminate.
Qed.

Lemma GetErr_error {T : Type} `{!GoType T} (source : gomap any)
  (path : string) (r : T) (e : error) :
  GetErr source path = Done (r, Some e) -> r = zero_value.
Proof. apply range_keys_error. Qed.

Lemma asNumberType_error `{!Runtime} (R : numkind) (v : any) (r : number)
  (e : error) :
  asNumberType R v = (r, Some e) -> r = zero_num R.
Proof.
  assert (Hc : forall x, convertNumber R x = (r, Some e) -> r = zero_num R).
  { intros x. rewrite convertNumber_round_trips.
    destruct (round_trips R x); [discriminate|]. by intros [= <- _]. }
  destruct v as [| | | |[[]|[]]| | |]; simpl; try apply Hc; by intros [= <- _].
Qed.

Lemma default_variant_dropped {A : Type} (with_err : go (A * option error))
  (zero : A) :
  (forall (v : A) (e : error), with_err = Done (v, Some e) -> v = zero) ->
  default_variant with_err
    ('(result, err) ← with_err; Done (withoutError result err)) zero.
Proof.
  intros Hz v err Hw. rewrite Hw. destruct err as [e|]; [|done].
  by rewrite (Hz v e Hw).
Qed.

(** C5.  Each default variant returns what its error-returning function
    returns when that succeeds, and the zero value of the result type when
    it fails: every error return of the package carries the zero value. *)
Theorem C5_default_variants :
  forall (RT : Runtime) (source : gomap any) (path : string),
    (forall (T : Type) (GT : GoType T),
        default_variant (GetErr (T := T) source path) (Get source path)
          zero_value)
    /\ default_variant (StrErr source path) (Str source path) ""
    /\ default_variant (IntErr source path) (Int source path) (NumInt t_int 0)
    /\ default_variant (Float64Err source path) (Float64 source path)
         (NumFloat t_float64 (S754_zero false))
    /\ default_variant (BoolErr source path) (Bool source path) false
    /\ default_variant (BytesErr source path) (Bytes source path) SliceNil
    /\ (forall (V : Type) (GV : GoType V),
           default_variant (SliceErr (V := V) source path)
             (Slice source path) SliceNil)
    /\ (forall (V : Type) (GV : GoType V),
           default_variant (MapErr (V := V) source path)
             (Map source path) MapNil)
    /\ (forall R : numkind,
           default_variant (NumberErr R source path) (Number R source path)
             (zero_num R)).
Proof.
  intros RT source path.
  assert (Hnum : forall (R : numkind) (v : number) (e : error),
             NumberErr R source path = Done (v, Some e) -> v = zero_num R).
  { intros R v e. unfold NumberErr.
    destruct (GetErr (T := any) source path) as [[value [e'|]]|msg]; simpl.
    - by intros [= <- _].
    - intros [= Hr]. by apply asNumberType_error in Hr.
    - discriminate. }
  split; [intros T GT; apply default_variant_dropped, GetErr_error|].
  split; [apply default_variant_dropped;
          exact (GetErr_error (T := string) source path)|].
  split; [apply default_variant_dropped, (Hnum (KInt t_int))|].
  split; [apply default_variant_dropped, (Hnum (KFloat t_float64))|].
  split; [apply default_variant_dropped;
          exact (GetErr_error (T := bool) source path)|].
  split; [|split; [|split]].
  - apply default_variant_dropped. intros v e. unfold BytesErr.
    destruct (GetErr (T := any) source path) as [[value [e'|]]|msg]; simpl.
    + by intros [= <- _].
    + destruct value; by intros [= <- _].
    + discriminate.
  - intros V GV. apply default_variant_dropped. intros v e. unfold SliceErr.
    destruct (GetErr (T := slice any) source path) as [[value [e'|]]|msg];
      simpl.
    + by intros [= <- _].
    + intros [= Hr]. by apply asSliceType_range_error in Hr.
    + discriminate.
  - intros V GV. apply default_variant_dropped. intros v e. unfold MapErr.
    destruct (GetErr (T := gomap any) source path) as [[value [e'|]]|msg];
      simpl.
    + by intros [= <- _].
    + intros [= Hr]. by apply asMapType_range_error in Hr.
    + discriminate.
  - intros R. apply default_variant_dropped, Hnum.
Qed.

Lemma C5_default_variants_witness :
  Str tree_leaf "a" = Done "b" /\ Str tree_leaf "nosuchkey" = Done "".
Proof.
  split.
  - refine (proj1 (proj2 (C5_default_variants sample_runtime tree_leaf "a"))
              "b" None _).
    vm_compute; reflexivity.
  - refine (proj1 (proj2 (C5_default_variants sample_runtime tree_leaf
                            "nosuchkey"))
              "" (Some (Errorf "%w: %s" ErrKeyNotFound [VString "nosuchkey"]))
              _).
    vm_compute; reflexivity.
Defined.

(** * Further properties *)

(** ** How a call of [GetErr] ends *)

Lemma range_keys_stops (source : gomap any) (depth : Z) (keys : list string) :
  forall (i : Z) (current : any),
    keys <> [] ->
    depth = i + Z.of_nat (length keys) - 1 ->
    exists (n : nat) (k : string) (c : any),
      walk source depth i keys current n = Some c
      /\ keys !! n = Some k
      /\ (forall v : any,
             switch source depth (i + Z.of_nat n) k c = Done (inl v) ->
             i + Z.of_nat n = depth)
      /\ forall (T : Type) (GT : GoType T),
          range_keys (T := T) source depth i keys current =
          stop_result (switch source depth (i + Z.of_nat n) k c).
Proof.
  induction keys as [|k keys IH]; intros i current Hne Hd; [done|].
  destruct (switch source depth i k current) as [[c'|e]|msg] eqn:Hs.
  - destruct (Z.eqb_spec i depth) as [Hi|Hi].
    + exists 0%nat, k, current. rewrite Z.add_0_r, Hs.
      repeat split; [done|]. intros T GT. simpl. rewrite Hs. simpl.
      destruct (Z.eqb_spec i depth); [|done]. unfold asserted.
      by destruct (type_assert c').
    + destruct (IH (i + 1) c') as (n & k' & c & Hw & Hk & Hterm & Hr).
      { intros ->. simpl in Hd. lia. }
      { simpl in Hd. lia. }
      exists (S n), k', c.
      replace (i + Z.of_nat (S n)) with (i + 1 + Z.of_nat n) by lia.
      split; [|split; [done|split; [done|]]].
      * rewrite walk_cons, Hs. by destruct (Z.eqb_spec i depth).
      * intros T GT. rewrite <- Hr. simpl. rewrite Hs. simpl.
        by destruct (Z.eqb_spec i depth).
  - exists 0%nat, k, current. rewrite Z.add_0_r, Hs.
    repeat split; [done|]. intros T GT. simpl. by rewrite Hs.
  - exists 0%nat, k, current. rewrite Z.add_0_r, Hs.
    repeat split; [done|]. intros T GT. simpl. by rewrite Hs.
Qed.

(** Every call stops at one segment: there the loop is at a node, and the
    [switch] on it panics, returns an error, or (at the last segment
    only) gives the node the type assertion is applied to.  The segment
    and the node do not depend on the type argument. *)
Lemma GetErr_stops (source : gomap any) (path : string) :
  exists (n : nat) (k : string) (c : any),
    current_at source path n = Some c
    /\ Split path "." !! n = Some k
    /\ (forall v : any,
           switch source (Z.of_nat (length (Split path ".")) - 1)
             (Z.of_nat n) k c = Done (inl v) ->
           terminal path n)
    /\ forall (T : Type) (GT : GoType T),
        GetErr (T := T) source path =
        stop_result
          (switch source (Z.of_nat (length (Split path ".")) - 1)
             (Z.of_nat n) k c).
Proof.
  destruct (range_keys_stops source (Z.of_nat (length (Split path ".")) - 1)
              (Split path ".") 0 (VMap source))
    as (n & k & c & Hw & Hk & Hterm & Hr).
  { apply Split_nonempty. }
  { lia. }
  exists n, k, c. rewrite Z.add_0_l in *.
  split; [done|split; [done|split; [|done]]].
  intros v Hv. apply terminal_depth. by apply (Hterm v).
Qed.

(** The errors of the [switch] are the four errors of the resolution. *)
Lemma switch_error (source : gomap any) (depth i : Z) (k : string) (c : any)
  (e : error) :
  switch source depth i k c = Done (inr e) ->
  Unwrap e <> ErrUnexpectedType /\ Unwrap e <> ErrUnableToConvert.
Proof.
  destruct c as [| | | | |m|s|]; simpl;
    try (destruct (negb (i =? depth)); by intros [= <-]).
  - destruct (table_of m !! k); by intros [= <-].
  - destruct (Atoi k) as [idx|]; [|by intros [= <-]].
    destruct ((idx <? 0) || (idx >? len_map source - 1)); [by intros [= <-]|].
    by destruct (index s idx).
Qed.

Lemma switch_panic (source : gomap any) (depth i : Z) (k : string) (c : any)
  (msg : string) :
  switch source depth i k c = Panic msg ->
  exists (s : slice any) (idx : Z),
    c = VSlice s /\ Atoi k = Some idx
    /\ 0 <= idx < len_map source /\ len_slice s <= idx
    /\ msg = "index out of range".
Proof.
  destruct c as [| | | | |m|s|]; simpl;
    try (destruct (negb (i =? depth)); discriminate).
  - destruct (table_of m !! k); discriminate.
  - destruct (Atoi k) as [idx|]; [|discriminate].
    destruct (Z.ltb_spec idx 0); [discriminate|].
    destruct (Z.gtb_spec idx (len_map source - 1)); [discriminate|]. simpl.
    unfold index. destruct (Z.ltb_spec idx 0); [lia|].
    destruct (elems_of s !! Z.to_nat idx) eqn:Hl; [discriminate|].
    intros [= <-]. exists s, idx. apply lookup_ge_None_1 in Hl.
    unfold len_slice. repeat split; try done; lia.
Qed.

Lemma switch_error_cases (source : gomap any) (depth i : Z) (k : string)
  (c : any) (e : error) :
  switch source depth i k c = Done (inr e) ->
  (exists m : gomap any,
      c = VMap m /\ table_of m !! k = None
      /\ e = Errorf "%w: %s" ErrKeyNotFound [VString k])
  \/ (exists s : slice any,
         c = VSlice s /\ Atoi k = None
         /\ e = Errorf "%w: lookup was '%s'" ErrNonIntegerSliceAccess
                  [VString k])
  \/ (exists (s : slice any) (idx : Z),
         c = VSlice s /\ Atoi k = Some idx
         /\ (idx < 0 \/ len_map source <= idx)
         /\ e = Errorf "%w: index '%d' but length '%d'" ErrIndexOutOfBounds
                  [boxInt idx; boxInt (len_map source)])
  \/ (is_leaf c /\ i <> depth
      /\ e = Errorf "%w: last key was '%s'" ErrEndOfNestedStructures
               [VString k]).
Proof.
  assert (Hleaf : is_leaf c ->
            switch source depth i k c = Done (inr e) ->
            is_leaf c /\ i <> depth
            /\ e = Errorf "%w: last key was '%s'" ErrEndOfNestedStructures
                     [VString k]).
  { intros Hl. rewrite switch_leaf by done.
    destruct (Z.eqb_spec i depth); simpl; [discriminate|].
    by intros [= <-]. }
  destruct c as [| | | | |m|s|];
    try (intros Hs; do 3 right; by apply Hleaf).
  - simpl. destruct (table_of m !! k) eqn:Hl; [discriminate|].
    intros [= <-]. left. by exists m.
  - simpl. destruct (Atoi k) as [idx|] eqn:Ha.
    + destruct (Z.ltb_spec idx 0); simpl.
      * intros [= <-]. do 2 right. left. exists s, idx.
        repeat split; try done. by left.
      * destruct (Z.gtb_spec idx (len_map source - 1)).
        -- intros [= <-]. do 2 right. left. exists s, idx.
           repeat split; try done. right. lia.
        -- by destruct (index s idx).
    + intros [= <-]. right. left. by exists s.
Qed.

(** X1.  [GetErr] panics exactly when the loop is at a slice, the segment
    parses as an index that passes the check against [len(source)], and
    the slice is no longer than the index; the panic is the run-time
    error of the element access. *)
Theorem GetErr_panics_iff :
  forall (T : Type) (GT : GoType T) (source : gomap any) (path : string)
         (msg : string),
    GetErr (T := T) source path = Panic msg <->
    (msg = "index out of range"
     /\ exists (n : nat) (k : string) (s : slice any) (idx : Z),
         current_at source path n = Some (VSlice s)
         /\ Split path "." !! n = Some k
         /\ Atoi k = Some idx
         /\ 0 <= idx < len_map source
         /\ len_slice s <= idx).
Proof.
  intros T GT source path msg. split.
  - intros Hp.
    destruct (GetErr_stops source path) as (n & k & c & Hc & Hk & _ & Hr).
    rewrite (Hr T GT) in Hp.
    destruct (switch source (Z.of_nat (length (Split path ".")) - 1)
                (Z.of_nat n) k c) as [[v|e]|msg'] eqn:Hs; try discriminate.
    injection Hp as ->.
    apply switch_panic in Hs as (s & idx & -> & Ha & Hin & Hlen & ->).
    split; [done|]. by exists n, k, s, idx.
  - intros (-> & n & k & s & idx & Hc & Hk & Ha & Hin & Hlen).
    by apply (proj2 (GetErr_index_bound source path n k s idx Hc Hk Ha)).
Qed.

Lemma GetErr_panics_iff_witness :
  GetErr (T := string) tree_two_keys "a.1" = Panic "index out of range".
Proof.
  apply (proj2 (GetErr_panics_iff string _ tree_two_keys "a.1"
                  "index out of range")).
  split; [reflexivity|].
  exists 1%nat, "1", (SliceOf [VString "x"]), 1.
  repeat split; vm_compute; (reflexivity || discriminate).
Defined.

(** Panics and resolution errors, from one type argument to another. *)
Lemma GetErr_any_type :
  forall (T1 T2 : Type) (G1 : GoType T1) (G2 : GoType T2)
         (source : gomap any) (path : string),
    (forall msg : string,
        GetErr (T := T1) source path = Panic msg ->
        GetErr (T := T2) source path = Panic msg)
    /\ (forall (r : T1) (e : error),
           GetErr (T := T1) source path = Done (r, Some e) ->
           Unwrap e <> ErrUnexpectedType ->
           GetErr (T := T2) source path = Done (zero_value, Some e)).
Proof.
  intros T1 T2 G1 G2 source path.
  destruct (GetErr_stops source path) as (n & k & c & Hc & Hk & _ & Hr).
  rewrite (Hr T1 G1), (Hr T2 G2).
  destruct (switch source (Z.of_nat (length (Split path ".")) - 1)
              (Z.of_nat n) k c) as [[v|e']|msg']; simpl.
  - split; [discriminate|]. intros r e. unfold asserted.
    destruct (type_assert (T := T1) v); [discriminate|].
    intros [= _ <-] Hne. by destruct Hne.
  - split; [discriminate|]. by intros r e [= _ <-] _.
  - split; [by intros msg [= ->]|]. intros r e [=].
Qed.


(** X2.  Resolution does not depend on the type asked for: when [GetErr]
    panics for one type argument it panics for every one, and an error
    other than [ErrUnexpectedType] is returned, the same, for every type
    argument. *)
Theorem GetErr_resolution_independent_of_type :
  forall (T1 T2 : Type) (G1 : GoType T1) (G2 : GoType T2)
         (source : gomap any) (path : string),
    (forall msg : string,
        GetErr (T := T1) source path = Panic msg ->
        GetErr (T := T2) source path = Panic msg)
    /\ (forall (r : T1) (e : error),
           GetErr (T := T1) source path = Done (r, Some e) ->
           Unwrap e <> ErrUnexpectedType ->
           GetErr (T := T2) source path = Done (zero_value, Some e)).
Proof. exact GetErr_any_type. Qed.

Lemma GetErr_resolution_independent_of_type_witness :
  GetErr (T := bool) tree_leaf "a.b.c" =
    Done (zero_value,
          Some (Errorf "%w: last key was '%s'" ErrEndOfNestedStructures
                  [VString "b"])).
Proof.
  refine (proj2 (GetErr_resolution_independent_of_type string bool _ _
                   tree_leaf "a.b.c") "" _ _ _).
  - vm_compute; reflexivity.
  - simpl. discriminate.
Defined.

(** What [GetErr[T]] returns, from what [GetErr[any]] returns. *)
Lemma GetErr_via_any :
  forall (T : Type) (GT : GoType T) (source : gomap any) (path : string),
    (forall v : any,
        GetErr (T := any) source path = Done (v, None) ->
        resolves_to source path v
        /\ GetErr (T := T) source path = Done (asserted v))
    /\ (forall r : T,
           GetErr (T := T) source path = Done (r, None) ->
           exists v : any,
             GetErr (T := any) source path = Done (v, None)
             /\ type_assert v = Some r).
Proof.
  intros T GT source path.
  destruct (GetErr_stops source path) as (n & k & c & Hc & Hk & Hterm & Hr).
  rewrite (Hr T GT), (Hr any _).
  destruct (switch source (Z.of_nat (length (Split path ".")) - 1)
              (Z.of_nat n) k c) as [[v'|e']|msg'] eqn:Hs; simpl;
    [|split; intros; discriminate..].
  specialize (Hterm v' eq_refl).
  assert (Hres : resolves_to source path v').
  { exists n, k, c. repeat split; try done.
    pose proof (proj1 (terminal_depth path n) Hterm) as Hd.
    by rewrite <- Hd in Hs. }
  split.
  - intros v. unfold asserted at 1. simpl.
    destruct v'; intros [= <-]; by split.
  - intros r. unfold asserted at 1.
    destruct (type_assert (T := T) v') as [r'|] eqn:Ha; [|discriminate].
    intros [= <-]. exists v'. split; [|done].
    unfold asserted. simpl. destruct v'; try done.
    by rewrite type_assert_nil in Ha.
Qed.


(** X3.  [GetErr[T]] is [GetErr[any]] followed by the type assertion:
    when [GetErr[any]] returns a value, [GetErr[T]] returns the assertion
    of that value to [T], and whatever [GetErr[T]] returns without an
    error is the assertion of the value [GetErr[any]] returns. *)
Theorem GetErr_factors_through_any :
  forall (T : Type) (GT : GoType T) (source : gomap any) (path : string),
    (forall v : any,
        GetErr (T := any) source path = Done (v, None) ->
        resolves_to source path v
        /\ GetErr (T := T) source path = Done (asserted v))
    /\ (forall r : T,
           GetErr (T := T) source path = Done (r, None) ->
           exists v : any,
             GetErr (T := any) source path = Done (v, None)
             /\ type_assert v = Some r).
Proof. exact GetErr_via_any. Qed.

Lemma GetErr_factors_through_any_witness :
  GetErr (T := string) tree_int_key "a.2" = Done (asserted (VString "2_val")).
Proof.
  refine (proj2 (proj1 (GetErr_factors_through_any string _ tree_int_key "a.2")
                   (VString "2_val") _)).
  vm_compute; reflexivity.
Defined.

(** X4.  Where each error of [GetErr] comes from.  An error is returned
    with the zero value, and it is: [ErrKeyNotFound] for a segment that is
    no key of the mapping the loop is at; [ErrNonIntegerSliceAccess] for a
    segment that does not parse at a slice; [ErrIndexOutOfBounds] for an
    index that is negative or not below [len(source)] at a slice;
    [ErrEndOfNestedStructures] at a leaf before the last segment; or
    [ErrUnexpectedType] for the node the path resolves to, when its type
    assertion fails.  [GetErr] returns no other error. *)
Theorem GetErr_error_cases :
  forall (T : Type) (GT : GoType T) (source : gomap any) (path : string)
         (r : T) (e : error),
    GetErr (T := T) source path = Done (r, Some e) ->
    r = zero_value
    /\ ((exists (n : nat) (k : string) (m : gomap any),
            current_at source path n = Some (VMap m)
            /\ Split path "." !! n = Some k
            /\ table_of m !! k = None
            /\ e = Errorf "%w: %s" ErrKeyNotFound [VString k])
        \/ (exists (n : nat) (k : string) (s : slice any),
               current_at source path n = Some (VSlice s)
               /\ Split path "." !! n = Some k
               /\ Atoi k = None
               /\ e = Errorf "%w: lookup was '%s'" ErrNonIntegerSliceAccess
                        [VString k])
        \/ (exists (n : nat) (k : string) (s : slice any) (idx : Z),
               current_at source path n = Some (VSlice s)
               /\ Split path "." !! n = Some k
               /\ Atoi k = Some idx
               /\ (idx < 0 \/ len_map source <= idx)
               /\ e = Errorf "%w: index '%d' but length '%d'"
                        ErrIndexOutOfBounds
                        [boxInt idx; boxInt (len_map source)])
        \/ (exists (n : nat) (k : string) (c : any),
               current_at source path n = Some c
               /\ Split path "." !! n = Some k
               /\ is_leaf c /\ ~ terminal path n
               /\ e = Errorf "%w: last key was '%s'" ErrEndOfNestedStructures
                        [VString k])
        \/ (exists v : any,
               resolves_to source path v
               /\ type_assert (T := T) v = None
               /\ e = Errorf "%w: '%T'" ErrUnexpectedType [v])).
Proof.
  intros T GT source path r e Hg. split; [by apply (GetErr_error _ _ _ _ Hg)|].
  destruct (GetErr_stops source path) as (n & k & c & Hc & Hk & Hterm & Hr).
  rewrite (Hr T GT) in Hg.
  destruct (switch source (Z.of_nat (length (Split path ".")) - 1)
              (Z.of_nat n) k c) as [[v|e']|msg'] eqn:Hs; simpl in Hg;
    [| |discriminate].
  - do 4 right. exists v. unfold asserted in Hg.
    destruct (type_assert (T := T) v) eqn:Ha; [discriminate|].
    injection Hg as _ <-. split; [|done].
    specialize (Hterm v eq_refl). exists n, k, c. repeat split; try done.
    pose proof (proj1 (terminal_depth path n) Hterm) as Hd.
    by rewrite <- Hd in Hs.
  - injection Hg as _ <-.
    destruct (switch_error_cases _ _ _ _ _ _ Hs)
      as [(m & -> & Hl & ->)|[(s & -> & Ha & ->)|
          [(s & idx & -> & Ha & Hb & ->)|(Hl & Hi & ->)]]].
    + left. by exists n, k, m.
    + right. left. by exists n, k, s.
    + do 2 right. left. by exists n, k, s, idx.
    + do 3 right. left. exists n, k, c. repeat split; try done.
      intros Ht. apply terminal_depth in Ht. lia.
Qed.

Lemma GetErr_error_cases_witness :
  "" = zero_value (T := string)
  /\ ((exists (n : nat) (k : string) (m : gomap any),
          current_at tree_leaf "x" n = Some (VMap m)
          /\ Split "x" "." !! n = Some k
          /\ table_of m !! k = None
          /\ Errorf "%w: %s" ErrKeyNotFound [VString "x"] =
             Errorf "%w: %s" ErrKeyNotFound [VString k])
      \/ (exists (n : nat) (k : string) (s : slice any),
             current_at tree_leaf "x" n = Some (VSlice s)
             /\ Split "x" "." !! n = Some k
             /\ Atoi k = None
             /\ Errorf "%w: %s" ErrKeyNotFound [VString "x"] =
                Errorf "%w: lookup was '%s'" ErrNonIntegerSliceAccess
                  [VString k])
      \/ (exists (n : nat) (k : string) (s : slice any) (idx : Z),
             current_at tree_leaf "x" n = Some (VSlice s)
             /\ Split "x" "." !! n = Some k
             /\ Atoi k = Some idx
             /\ (idx < 0 \/ len_map tree_leaf <= idx)
             /\ Errorf "%w: %s" ErrKeyNotFound [VString "x"] =
                Errorf "%w: index '%d' but length '%d'" ErrIndexOutOfBounds
                  [boxInt idx; boxInt (len_map tree_leaf)])
      \/ (exists (n : nat) (k : string) (c : any),
             current_at tree_leaf "x" n = Some c
             /\ Split "x" "." !! n = Some k
             /\ is_leaf c /\ ~ terminal "x" n
             /\ Errorf "%w: %s" ErrKeyNotFound [VString "x"] =
                Errorf "%w: last key was '%s'" ErrEndOfNestedStructures
                  [VString k])
      \/ (exists v : any,
             resolves_to tree_leaf "x" v
             /\ type_assert (T := string) v = None
             /\ Errorf "%w: %s" ErrKeyNotFound [VString "x"] =
                Errorf "%w: '%T'" ErrUnexpectedType [v])).
Proof.
  apply (GetErr_error_cases string _ tree_leaf "x" ""
           (Errorf "%w: %s" ErrKeyNotFound [VString "x"])).
  vm_compute; reflexivity.
Defined.

(** ** Navigation *)






Lemma range_keys_follow {T : Type} `{!GoType T} (source : gomap any)
  (depth : Z) (keys : list string) :
  forall (i : Z) (current v : any),
    keys <> [] ->
    depth = i + Z.of_nat (length keys) - 1 ->
    follow keys current = Some v ->
    range_keys (T := T) source depth i keys current = Done (asserted v)
    \/ exists idx : Z,
        len_map source <= idx
        /\ range_keys (T := T) source depth i keys current =
           Done (zero_value,
                 Some (Errorf "%w: index '%d' but length '%d'"
                         ErrIndexOutOfBounds
                         [boxInt idx; boxInt (len_map source)])).
Proof.
  induction keys as [|k keys IH]; intros i current v Hne Hd Hf; [done|].
  assert (Hnext : forall c' : any,
             switch source depth i k current = Done (inl c') ->
             follow keys c' = Some v ->
             range_keys (T := T) source depth i (k :: keys) current
               = Done (asserted v)
             \/ exists idx : Z,
                 len_map source <= idx
                 /\ range_keys (T := T) source depth i (k :: keys) current =
                    Done (zero_value,
                          Some (Errorf "%w: index '%d' but length '%d'"
                                  ErrIndexOutOfBounds
                                  [boxInt idx; boxInt (len_map source)]))).
  { intros c' Hs Hf'. simpl. rewrite Hs. simpl.
    destruct (Z.eqb_spec i depth) as [Hi|Hi].
    - assert (keys = []) as -> by (destruct keys; [done|simpl in Hd; lia]).
      simpl in Hf'. injection Hf' as ->. left. unfold asserted.
      by destruct (type_assert v).
    - apply IH; [|simpl in Hd; lia|done].
      intros ->. simpl in Hd. lia. }
  destruct current as [| | | | |m|s|];
    try (simpl in Hf; destruct keys; [|discriminate]; injection Hf as <-;
         eapply Hnext; [|reflexivity]; rewrite switch_leaf by done;
         simpl in Hd; destruct (Z.eqb_spec i depth); [done|lia]).
  - simpl in Hf. destruct (table_of m !! k) as [c'|] eqn:Hl; [|discriminate].
    apply (Hnext c'); [|done]. simpl. by rewrite Hl.
  - simpl in Hf. destruct (Atoi k) as [idx|] eqn:Ha; [|discriminate].
    destruct (Z.ltb_spec idx 0); [discriminate|].
    destruct (elems_of s !! Z.to_nat idx) as [c'|] eqn:Hl; [|discriminate].
    destruct (Z.gtb_spec idx (len_map source - 1)) as [Hgt|Hle].
    + right. exists idx. split; [lia|]. simpl. rewrite Ha.
      destruct (Z.ltb_spec idx 0); [lia|].
      by destruct (Z.gtb_spec idx (len_map source - 1)); [|lia].
    + apply (Hnext c'); [|done]. rewrite (switch_slice _ _ _ _ _ _ Ha).
      destruct (Z.ltb_spec idx 0); [lia|].
      destruct (Z.gtb_spec idx (len_map source - 1)); [lia|]. simpl.
      by rewrite Hl.
Qed.

(** X6.  When following the segments of the path reaches a node,
    [GetErr] returns the assertion of that node, or else
    [ErrIndexOutOfBounds] for an index that is not below [len(source)]: it
    does not panic and returns no other error. *)
Theorem GetErr_complete_up_to_bound :
  forall (T : Type) (GT : GoType T) (source : gomap any) (path : string)
         (v : any),
    follow (Split path ".") (VMap source) = Some v ->
    GetErr (T := T) source path = Done (asserted v)
    \/ exists idx : Z,
        len_map source <= idx
        /\ GetErr (T := T) source path =
           Done (zero_value,
                 Some (Errorf "%w: index '%d' but length '%d'"
                         ErrIndexOutOfBounds
                         [boxInt idx; boxInt (len_map source)])).
Proof.
  intros T GT source path v Hf. unfold GetErr.
  apply range_keys_follow; [apply Split_nonempty|lia|done].
Qed.

Lemma GetErr_complete_up_to_bound_witness :
  GetErr (T := any) tree_deep "a.0.b.c.1" = Done (asserted (f64 1 0))
  \/ exists idx : Z,
      len_map tree_deep <= idx
      /\ GetErr (T := any) tree_deep "a.0.b.c.1" =
         Done (zero_value,
               Some (Errorf "%w: index '%d' but length '%d'"
                       ErrIndexOutOfBounds
                       [boxInt idx; boxInt (len_map tree_deep)])).
Proof.
  apply (GetErr_complete_up_to_bound any _ tree_deep "a.0.b.c.1" (f64 1 0)).
  vm_compute; reflexivity.
Defined.

(** ** Longer paths *)

Lemma Split_app (s t : string) (sep : ascii) :
  Split (s +:+ String sep t) sep = Split s sep ++ Split t sep.
Proof.
  induction s as [|c s IH]; simpl.
  - by rewrite Ascii.eqb_refl.
  - rewrite IH. destruct (Ascii.eqb c sep); [done|].
    pose proof (Split_nonempty s sep). by destruct (Split s sep).
Qed.

(** A [switch] that moves to a node other than the one it is at does so
    whatever the index of the iteration and the depth. *)
Lemma switch_moves (source : gomap any) (d i : Z) (k : string) (c v : any) :
  switch source d i k c = Done (inl v) ->
  (~ is_leaf v \/ i <> d) ->
  forall d' i' : Z, switch source d' i' k c = Done (inl v).
Proof.
  intros Hs Hor d' i'.
  destruct c as [| | | | |m|s|]; try done;
    rewrite switch_leaf in Hs by done;
    (destruct (Z.eqb_spec i d); simpl in Hs; [|discriminate]);
    injection Hs as <-; by destruct Hor.
Qed.

Lemma walk_extend (source : gomap any) (d d' : Z) (more : list string)
  (n : nat) :
  forall (i : Z) (keys : list string) (current c : any),
    walk source d i keys current n = Some c ->
    i + Z.of_nat n <= d' ->
    walk source d' i (keys ++ more) current n = Some c.
Proof.
  induction n as [|n IH]; intros i keys current c Hw Hle; [done|].
  destruct keys as [|k keys]; [discriminate|].
  rewrite walk_cons in Hw. rewrite <- app_comm_cons, walk_cons.
  destruct (switch source d i k current) as [[c'|e]|msg] eqn:Hs;
    try discriminate.
  destruct (Z.eqb_spec i d); [discriminate|].
  rewrite (switch_moves _ _ _ _ _ _ Hs) by (by right).
  destruct (Z.eqb_spec i d'); [lia|]. apply IH; [done|lia].
Qed.

Lemma switch_shift (s1 s2 : gomap any) (d1 d2 i1 i2 : Z) (k : string)
  (c : any) :
  len_map s1 = len_map s2 ->
  d1 - i1 = d2 - i2 ->
  switch s1 d1 i1 k c = switch s2 d2 i2 k c.
Proof.
  intros Hlen Hd.
  assert (Heq : (i1 =? d1) = (i2 =? d2))
    by (destruct (Z.eqb_spec i1 d1), (Z.eqb_spec i2 d2); try done; lia).
  destruct c; simpl; rewrite ?Heq, ?Hlen; done.
Qed.

Lemma range_keys_shift {T : Type} `{!GoType T} (s1 s2 : gomap any)
  (keys : list string) :
  forall (d1 d2 i1 i2 : Z) (current : any),
    len_map s1 = len_map s2 ->
    d1 - i1 = d2 - i2 ->
    range_keys (T := T) s1 d1 i1 keys current =
    range_keys s2 d2 i2 keys current.
Proof.
  induction keys as [|k keys IH]; intros d1 d2 i1 i2 current Hlen Hd; [done|].
  simpl. rewrite (switch_shift s1 s2 d1 d2 i1 i2) by done.
  destruct (switch s2 d2 i2 k current) as [[c|e]|msg]; simpl; try done.
  replace (i1 =? d1) with (i2 =? d2)
    by (destruct (Z.eqb_spec i1 d1), (Z.eqb_spec i2 d2); try done; lia).
  destruct (i2 =? d2); [done|]. apply IH; [done|lia].
Qed.

(** The loop on the path [p.q], once it has gone through the segments of
    [p] to a mapping or a slice. *)
Lemma GetErr_after_prefix {T : Type} `{!GoType T} (source : gomap any)
  (p q : string) (v : any) :
  resolves_to source p v ->
  ~ is_leaf v ->
  current_at source (p +:+ String "." q) (length (Split p ".")) = Some v
  /\ GetErr (T := T) source (p +:+ String "." q) =
     range_keys source
       (Z.of_nat (length (Split p ".")) + Z.of_nat (length (Split q ".")) - 1)
       (Z.of_nat (length (Split p "."))) (Split q ".") v.
Proof.
  intros (n & k & c & Ht & Hk & Hc & Hs) Hv.
  unfold terminal in Ht. unfold current_at, GetErr in *.
  rewrite Split_app, length_app, Nat2Z.inj_add.
  set (kp := Split p ".") in *. set (kq := Split q ".") in *.
  set (D := Z.of_nat (length kp) + Z.of_nat (length kq) - 1).
  assert (Hq : (0 < length kq)%nat).
  { pose proof (Split_nonempty q "."). fold kq in H. destruct kq; [done|].
    simpl. lia. }
  assert (Hw : walk source D 0 (kp ++ kq) (VMap source) (length kp) = Some v).
  { rewrite <- Ht. apply (walk_S _ _ k c).
    - apply (walk_extend _ _ _ _ _ _ _ _ _ Hc). lia.
    - by apply lookup_app_l_Some.
    - lia.
    - apply (switch_moves _ _ _ _ _ _ Hs). by left. }
  split; [done|].
  rewrite (range_keys_walk _ _ _ _ _ _ _ Hw).
  by rewrite drop_app_length, Z.add_0_l.
Qed.

Lemma GetErr_map_resolves (source : gomap any) (path : string)
  (m : gomap any) :
  GetErr (T := gomap any) source path = Done (m, None) ->
  resolves_to source path (VMap m).
Proof.
  intros Hg.
  destruct (proj2 (GetErr_via_any _ _ source path) m Hg)
    as (v & Hany & Ha).
  destruct v; try discriminate. injection Ha as ->.
  by apply (proj1 (GetErr_via_any any _ source path) _ Hany).
Qed.

Lemma GetErr_slice_resolves (source : gomap any) (path : string)
  (s : slice any) :
  GetErr (T := slice any) source path = Done (s, None) ->
  resolves_to source path (VSlice s).
Proof.
  intros Hg.
  destruct (proj2 (GetErr_via_any _ _ source path) s Hg)
    as (v & Hany & Ha).
  destruct v; try discriminate. injection Ha as ->.
  by apply (proj1 (GetErr_via_any any _ source path) _ Hany).
Qed.

(** X7.  Lookups compose: when the path [p] resolves to a mapping [m]
    with as many keys as [source], the lookup of [p.q] in [source] is the
    lookup of [q] in [m]. *)
Theorem GetErr_compose :
  forall (T : Type) (GT : GoType T) (source : gomap any) (p q : string)
         (m : gomap any),
    GetErr (T := gomap any) source p = Done (m, None) ->
    len_map m = len_map source ->
    GetErr (T := T) source (p +:+ "." +:+ q) = GetErr (T := T) m q.
Proof.
  intros T GT source p q m Hg Hlen.
  change ("." +:+ q) with (String "."%char q).
  destruct (GetErr_after_prefix (T := T) source p q (VMap m)) as [_ ->];
    [by apply GetErr_map_resolves|by intros []|].
  unfold GetErr. apply range_keys_shift; [done|lia].
Qed.

Lemma GetErr_compose_witness :
  GetErr (T := string) tree_int_key ("a" +:+ "." +:+ "2") =
  GetErr (T := string) (obj [("2", VString "2_val")]) "2".
Proof.
  apply (GetErr_compose string _ tree_int_key "a" "2"
           (obj [("2", VString "2_val")])).
  - vm_compute; reflexivity.
  - vm_compute; reflexivity.
Defined.

(** X8.  One more key.  When the path [p] resolves to a mapping [m] and
    [k] is a single segment, the lookup of [p.k] is the lookup of the key
    [k] in [m]: [ErrKeyNotFound] when [m] has no such key, the assertion
    of the value under it when it has. *)
Theorem GetErr_then_key :
  forall (T : Type) (GT : GoType T) (source : gomap any) (p k : string)
         (m : gomap any),
    GetErr (T := gomap any) source p = Done (m, None) ->
    Split k "." = [k] ->
    GetErr (T := T) source (p +:+ "." +:+ k) =
    match table_of m !! k with
    | None =>
        Done (zero_value, Some (Errorf "%w: %s" ErrKeyNotFound [VString k]))
    | Some v => Done (asserted v)
    end.
Proof.
  intros T GT source p k m Hg Hk.
  change ("." +:+ k) with (String "."%char k).
  destruct (GetErr_after_prefix (T := T) source p k (VMap m)) as [_ ->];
    [by apply GetErr_map_resolves|by intros []|].
  rewrite Hk. simpl.
  destruct (table_of m !! k) as [v|]; simpl; [|done].
  match goal with
  | |- context [?a =? ?b] => destruct (Z.eqb_spec a b); [|lia]
  end.
  unfold asserted. by destruct (type_assert v).
Qed.

Lemma GetErr_then_key_witness :
  GetErr (T := string) tree_int_key ("a" +:+ "." +:+ "2") =
  match table_of (obj [("2", VString "2_val")]) !! "2" with
  | None =>
      Done (zero_value, Some (Errorf "%w: %s" ErrKeyNotFound [VString "2"]))
  | Some v => Done (asserted v)
  end.
Proof.
  apply (GetErr_then_key string _ tree_int_key "a" "2"
           (obj [("2", VString "2_val")])).
  - vm_compute; reflexivity.
  - reflexivity.
Defined.

Lemma digits_Split (s : string) :
  forall n m : Z, digits s n = Some m -> s <> EmptyString -> Split s "." = [s].
Proof.
  induction s as [|c s IH]; intros n m Hd Hne; [done|].
  simpl in Hd. destruct (digit c) as [d|] eqn:Hc; [|discriminate].
  simpl. destruct (Ascii.eqb_spec c ".") as [->|_]; [discriminate|].
  destruct s as [|c' s']; [done|].
  by rewrite (IH _ _ Hd).
Qed.

(** A segment that parses as an integer holds no dot. *)
Lemma Atoi_Split (k : string) (idx : Z) :
  Atoi k = Some idx -> Split k "." = [k].
Proof.
  unfold Atoi. intros Ha.
  assert (Hbody : forall body : string,
             match body with
             | EmptyString => None
             | String _ _ =>
                 match digits body 0 with
                 | Some n => Some n
                 | None => None
                 end
             end <> @None Z ->
             Split body "." = [body] /\ body <> EmptyString).
  { intros body Hb. destruct body as [|c b]; [done|].
    destruct (digits (String c b) 0) as [n|] eqn:Hd; [|done].
    split; [|done]. by apply (digits_Split _ 0 n). }
  destruct k as [|c t]; [discriminate|].
  destruct (Ascii.eqb_spec c "-") as [->|Hm];
    [|destruct (Ascii.eqb_spec c "+") as [->|Hp]].
  - destruct (Hbody t) as [Ht Hne].
    { destruct t; [discriminate|]. by destruct (digits _ 0). }
    simpl. by rewrite Ht.
  - destruct (Hbody t) as [Ht Hne].
    { destruct t; [discriminate|]. by destruct (digits _ 0). }
    simpl. by rewrite Ht.
  - apply (Hbody (String c t)).
    assert (Hs : match String c t with
                 | String "-" t' => (true, t')
                 | String "+" t' => (false, t')
                 | _ => (false, String c t)
                 end = (false, String c t)).
    { destruct c as [[] [] [] [] [] [] [] []]; try done. }
    rewrite Hs in Ha. by destruct (digits (String c t) 0).
Qed.

(** X9.  One more index.  When the path [p] resolves to a slice [s] and
    the segment [k] parses as the index [idx], the lookup of [p.k]
    fails with [ErrIndexOutOfBounds] when [idx] is negative or not below
    [len(source)], gives the assertion of the element when [idx] is below
    [len(source)] and within [s], and panics when [idx] is below
    [len(source)] and not within [s]. *)
Theorem GetErr_then_index :
  forall (T : Type) (GT : GoType T) (source : gomap any) (p k : string)
         (s : slice any) (idx : Z),
    GetErr (T := slice any) source p = Done (s, None) ->
    Atoi k = Some idx ->
    GetErr (T := T) source (p +:+ "." +:+ k) =
    if (idx <? 0) || (len_map source <=? idx) then
      Done (zero_value,
            Some (Errorf "%w: index '%d' but length '%d'" ErrIndexOutOfBounds
                    [boxInt idx; boxInt (len_map source)]))
    else match elems_of s !! Z.to_nat idx with
         | Some v => Done (asserted v)
         | None => Panic "index out of range"
         end.
Proof.
  intros T GT source p k s idx Hg Ha.
  pose proof (Atoi_Split k idx Ha) as Hk.
  change ("." +:+ k) with (String "."%char k).
  destruct (GetErr_after_prefix (T := T) source p k (VSlice s)) as [_ ->];
    [by apply GetErr_slice_resolves|by intros []|].
  rewrite Hk. cbn [range_keys]. rewrite (switch_slice _ _ _ _ _ _ Ha).
  replace (idx >? len_map source - 1) with (len_map source <=? idx)
    by (destruct (Z.gtb_spec idx (len_map source - 1)),
          (Z.leb_spec (len_map source) idx); try done; lia).
  destruct ((idx <? 0) || (len_map source <=? idx)); [done|].
  destruct (elems_of s !! Z.to_nat idx) as [v|]; [|done]. simpl.
  match goal with
  | |- context [?a =? ?b] => destruct (Z.eqb_spec a b); [|lia]
  end.
  unfold asserted. by destruct (type_assert v).
Qed.

Lemma GetErr_then_index_witness :
  GetErr (T := string) tree_one_elem ("a" +:+ "." +:+ "0") =
  if (0 <? 0) || (len_map tree_one_elem <=? 0) then
    Done (zero_value,
          Some (Errorf "%w: index '%d' but length '%d'" ErrIndexOutOfBounds
                  [boxInt 0; boxInt (len_map tree_one_elem)]))
  else match elems_of (SliceOf [VString "x"]) !! Z.to_nat 0 with
       | Some v => Done (asserted v)
       | None => Panic "index out of range"
       end.
Proof.
  apply (GetErr_then_index string _ tree_one_elem "a" "0"
           (SliceOf [VString "x"]) 0).
  - vm_compute; reflexivity.
  - reflexivity.
Defined.

(** ** The empty tree *)

(** X10.  In the nil map and in the empty map every lookup fails with
    [ErrKeyNotFound] for the first segment of the path, whatever the
    path and the type asked for. *)
Theorem GetErr_empty_source :
  forall (T : Type) (GT : GoType T) (path : string),
    exists (k : string) (rest : list string),
      Split path "." = k :: rest
      /\ GetErr (T := T) MapNil path =
         Done (zero_value, Some (Errorf "%w: %s" ErrKeyNotFound [VString k]))
      /\ GetErr (T := T) (MapOf ∅) path =
         Done (zero_value, Some (Errorf "%w: %s" ErrKeyNotFound [VString k])).
Proof.
  intros T GT path. unfold GetErr.
  pose proof (Split_nonempty path ".") as Hne.
  destruct (Split path ".") as [|k rest]; [done|].
  exists k, rest. by repeat split.
Qed.

(** ** Elements *)

Section Assertions.
Context {V : Type} `{!GoType V}.

Lemma assert_all_or_first (l : list any) :
  (exists vs : list V, Forall2 (fun v r => type_assert v = Some r) l vs)
  \/ (exists (pre : list any) (v : any) (post : list any),
         l = pre ++ v :: post
         /\ Forall (fun u => is_Some (type_assert (T := V) u)) pre
         /\ type_assert (T := V) v = None).
Proof.
  induction l as [|u l IH].
  - left. exists []. constructor.
  - destruct (type_assert (T := V) u) as [r|] eqn:Hu.
    + destruct IH as [(vs & Hall)|(pre & v & post & -> & Hpre & Hv)].
      * left. exists (r :: vs). by constructor.
      * right. exists (u :: pre), v, post. repeat split; [|done].
        constructor; [by exists r|done].
    + right. exists [], u, l. repeat split; [constructor|done].
Qed.
End Assertions.

(** X11.  [asSliceType] succeeds exactly when every element asserts to
    the element type, and the result is then a non-nil slice of the same
    length holding the asserted elements in the order of the input; for
    the nil slice and the empty slice it is the empty, non-nil slice. *)
Theorem asSliceType_success_iff :
  forall (V : Type) (GV : GoType V) (input : slice any) (r : slice V),
    (asSliceType input = (r, None) <->
     exists vs : list V,
       r = SliceOf vs
       /\ Forall2 (fun v x => type_assert v = Some x) (elems_of input) vs)
    /\ asSliceType (R := V) SliceNil = (SliceOf [], None)
    /\ asSliceType (R := V) (SliceOf []) = (SliceOf [], None).
Proof.
  intros V GV input r. split; [|by split]. split.
  - intros Hr.
    destruct (assert_all_or_first (V := V) (elems_of input))
      as [(vs & Hall)|(pre & v & post & Hin & Hpre & Hv)].
    + exists vs. split; [|done].
      rewrite (asSliceType_ok input vs Hall) in Hr.
      by injection Hr as <-.
    + unfold asSliceType in Hr. rewrite Hin in Hr.
      rewrite asSliceType_range_fail in Hr by done. discriminate.
  - intros (vs & -> & Hall).
    exact (asSliceType_range_ok (elems_of input) [] vs Hall).
Qed.

Lemma asSliceType_success_iff_witness :
  exists vs : list bool,
    SliceOf [true; false] = SliceOf vs
    /\ Forall2 (fun v x => type_assert v = Some x)
         (elems_of (SliceOf [VBool true; VBool false])) vs.
Proof.
  apply (proj1 (proj1 (asSliceType_success_iff bool _
                         (SliceOf [VBool true; VBool false])
                         (SliceOf [true; false])))).
  reflexivity.
Defined.

(** X12.  [asMapType] succeeds exactly when every value asserts to the
    element type, and the result is then a non-nil map with the same keys
    holding the asserted values, whatever the order [range] visits the
    entries in; for the nil map it is the empty, non-nil map. *)
Theorem asMapType_success_iff :
  forall (RT : Runtime) (V : Type) (GV : GoType V) (input : gomap any)
         (r : gomap V),
    (asMapType input = (r, None) <->
     r = MapOf (omap type_assert (table_of input))
     /\ map_Forall (fun _ v => is_Some (type_assert (T := V) v))
          (table_of input))
    /\ dom (omap (type_assert (T := V)) (table_of input)) ⊆ dom (table_of input)
    /\ asMapType (R := V) MapNil = (MapOf ∅, None).
Proof.
  intros RT V GV input r. split; [split|split].
  - intros Hr.
    destruct (decide (map_Forall (fun _ v => is_Some (type_assert (T := V) v))
                        (table_of input))) as [Hall|Hnot].
    + split; [|done]. rewrite (asMapType_ok input) in Hr by exact Hall.
      by injection Hr as <-.
    + apply map_not_Forall in Hnot as (k & v & Hk & Hv); [|apply _].
      apply eq_None_not_Some in Hv.
      destruct (asMapType_fail (V := V) input k v Hk Hv)
        as (k' & v' & _ & _ & Hf).
      rewrite Hf in Hr. discriminate.
  - intros [-> Hall]. by apply asMapType_ok.
  - intros k. rewrite !elem_of_dom, lookup_omap.
    destruct (table_of input !! k); [by eexists|]. by intros [? ?].
  - rewrite (asMapType_ok (V := V) MapNil)
      by (intros k v; simpl; by rewrite lookup_empty).
    simpl. by rewrite omap_empty.
Qed.

Lemma asMapType_success_iff_witness :
  asMapType (R := bool) (obj [("b", VBool true)]) =
    (MapOf (omap type_assert (table_of (obj [("b", VBool true)]))), None).
Proof.
  apply (proj2 (proj1 (asMapType_success_iff sample_runtime bool _
                         (obj [("b", VBool true)]) _))).
  split; [reflexivity|].
  intros k v Hk. destruct (decide (k = "b")) as [->|Hne].
  - vm_compute in Hk. injection Hk as <-. by exists true.
  - unfold obj, table_of in Hk. simpl in Hk.
    rewrite lookup_insert_ne in Hk by done. by rewrite lookup_empty in Hk.
Defined.

Lemma asMapType_any_copy `{!Runtime} (input : gomap any) :
  (forall k : string, table_of input !! k <> Some Nil) ->
  asMapType (R := any) input = (MapOf (table_of input), None).
Proof.
  intros Hno. rewrite (asMapType_ok (V := any) input).
  - do 2 f_equal. apply map_eq. intros k. rewrite lookup_omap.
    destruct (table_of input !! k) as [v|] eqn:Hk; [|done].
    destruct v; try done. by destruct (Hno k).
  - intros k v Hk. destruct v; try by eexists. by destruct (Hno k).
Qed.

(** X13.  Null elements.  With the element type [any], [asSliceType]
    returns a copy of a slice that holds no nil and fails with
    [ErrUnableToConvert] on a slice that holds one; [asMapType] returns a
    copy of a map none of whose values is nil and fails on a map with a
    nil value. *)
Theorem any_elements_not_nil :
  (forall input : slice any,
      (Nil ∉ elems_of input ->
       asSliceType (R := any) input = (SliceOf (elems_of input), None))
      /\ (Nil ∈ elems_of input ->
          asSliceType (R := any) input =
            (SliceNil,
             Some (Errorf "%w: %v cannot be converted to %T"
                     ErrUnableToConvert [Nil; Nil]))))
  /\ (forall (RT : Runtime) (input : gomap any),
         ((forall k : string, table_of input !! k <> Some Nil) ->
          asMapType (R := any) input = (MapOf (table_of input), None))
         /\ (forall k : string,
                table_of input !! k = Some Nil ->
                asMapType (R := any) input =
                  (MapNil,
                   Some (Errorf "%w: %v cannot be converted to %T"
                           ErrUnableToConvert [Nil; Nil])))).
Proof.
  split.
  - intros input. split.
    + intros Hno. apply (asSliceType_ok (V := any)).
      induction (elems_of input) as [|v l IH]; [constructor|].
      apply not_elem_of_cons in Hno as [Hv Hl].
      constructor; [by destruct v|by apply IH].
    + intros Hin.
      destruct (assert_all_or_first (V := any) (elems_of input))
        as [(vs & Hall)|(pre & v & post & Heq & Hpre & Hv)].
      * exfalso. revert vs Hall.
        induction (elems_of input) as [|u l IH]; intros vs Hall.
        -- by apply elem_of_nil in Hin.
        -- apply Forall2_cons_inv_l in Hall as (x & vs' & Hu & Hall & ->).
           apply elem_of_cons in Hin as [<-|Hin]; [discriminate|].
           by apply (IH Hin vs').
      * assert (v = Nil) as -> by (by destruct v).
        exact (asSliceType_fail (V := any) input pre Nil post Heq Hpre Hv).
  - intros RT input. split.
    + apply asMapType_any_copy.
    + intros k Hk.
      destruct (asMapType_fail (V := any) input k Nil Hk type_assert_nil)
        as (k' & v' & _ & Hv' & Hf).
      assert (v' = Nil) as -> by (by destruct v'). exact Hf.
Qed.

Lemma any_elements_not_nil_witness :
  asSliceType (R := any) (SliceOf [VBool true; Nil]) =
    (SliceNil,
     Some (Errorf "%w: %v cannot be converted to %T" ErrUnableToConvert
             [Nil; Nil])).
Proof.
  apply (proj2 (proj1 any_elements_not_nil (SliceOf [VBool true; Nil]))).
  simpl. apply elem_of_cons. right. apply elem_of_cons. by left.
Defined.

(** ** Integer conversions *)

Ltac wrap_cases :=
  unfold in_range, wrap, min_of, max_of;
  cbn [bits signed];
  intros;
  repeat match goal with
         | H : _ && _ = true |- _ => apply andb_prop in H as [? ?]
         | H : _ && _ = false |- _ => apply andb_false_iff in H
         | H : (_ <=? _) = true |- _ => apply Z.leb_le in H
         | H : (_ <=? _) = false |- _ => apply Z.leb_gt in H
         end;
  change (2 ^ 7) with 128 in *; change (2 ^ 8) with 256 in *;
  change (2 ^ 15) with 32768 in *; change (2 ^ 16) with 65536 in *;
  change (2 ^ 31) with 2147483648 in *; change (2 ^ 32) with 4294967296 in *;
  change (2 ^ 63) with 9223372036854775808 in *;
  change (2 ^ 64) with 18446744073709551616 in *;
  Z.to_euclidean_division_equations; lia.

Lemma wrap_in_range (k : int_kind) (z : Z) :
  in_range k z = true -> wrap k z = z.
Proof. destruct k; wrap_cases. Qed.

Lemma wrap_wider (k r : int_kind) (z : Z) :
  bits k <= bits r -> in_range k z = true -> wrap k (wrap r z) = z.
Proof. destruct k, r; wrap_cases. Qed.

Lemma wrap_same_sign (k r : int_kind) (z : Z) :
  signed k = signed r -> in_range k z = true -> in_range r z = false ->
  wrap k (wrap r z) <> z.
Proof. destruct k, r; try discriminate; wrap_cases. Qed.

(** X14.  [convertNumber] between integer types, on a value [z] of the
    type [k].  When [z] is a value of the target type it is returned
    unchanged.  When the target type is at least as wide as [k] the
    conversion never fails, and returns [z] wrapped into the target type:
    the int8 -1 as uint8 is 255, without an error.  Between two signed or
    two unsigned types it fails with [ErrUnableToConvert] whenever [z] is
    no value of the target type. *)
Theorem convertNumber_integers :
  forall (RT : Runtime) (k r : int_kind) (z : Z),
    in_range k z = true ->
    (in_range r z = true ->
     convertNumber (KInt r) (NumInt k z) = (NumInt r z, None))
    /\ (bits k <= bits r ->
        convertNumber (KInt r) (NumInt k z) = (NumInt r (wrap r z), None))
    /\ (signed k = signed r ->
        in_range r z = false ->
        convertNumber (KInt r) (NumInt k z) =
          (NumInt r 0,
           Some (Errorf
                   "%w: %T value '%v' cannot be converted to an equal value of type %T"
                   ErrUnableToConvert
                   [VNum (NumInt k z); VNum (NumInt k z); VNum (NumInt r 0)])))
    /\ convertNumber (KInt t_uint8) (NumInt t_int8 (-1)) =
         (NumInt t_uint8 255, None).
Proof.
  intros RT k r z Hk.
  assert (Hc : forall b : bool,
             (wrap k (wrap r z) =? z) = b ->
             convertNumber (KInt r) (NumInt k z) =
             if b then (NumInt r (wrap r z), None)
             else (NumInt r 0,
                   Some (Errorf
                           "%w: %T value '%v' cannot be converted to an equal value of type %T"
                           ErrUnableToConvert
                           [VNum (NumInt k z); VNum (NumInt k z);
                            VNum (NumInt r 0)]))).
  { intros b Hb. unfold convertNumber. simpl. by rewrite Hb. }
  split; [|split; [|split; [|reflexivity]]].
  - intros Hr. rewrite (Hc true).
    + by rewrite (wrap_in_range r z Hr).
    + apply Z.eqb_eq. rewrite (wrap_in_range r z Hr). by apply wrap_in_range.
  - intros Hb. apply (Hc true), Z.eqb_eq. by apply wrap_wider.
  - intros Hs Hr. apply (Hc false), Z.eqb_neq. by apply wrap_same_sign.
Qed.

Lemma convertNumber_integers_witness :
  convertNumber (KInt t_uint16) (NumInt t_int8 (-1)) =
    (NumInt t_uint16 (wrap t_uint16 (-1)), None)
  /\ convertNumber (KInt t_int8) (NumInt t_int16 300) =
    (NumInt t_int8 0,
     Some (Errorf
             "%w: %T value '%v' cannot be converted to an equal value of type %T"
             ErrUnableToConvert
             [VNum (NumInt t_int16 300); VNum (NumInt t_int16 300);
              VNum (NumInt t_int8 0)])).
Proof.
  split.
  - apply (proj1 (proj2 (convertNumber_integers sample_runtime t_int8 t_uint16
                           (-1) eq_refl))).
    simpl. lia.
  - apply (proj1 (proj2 (proj2 (convertNumber_integers sample_runtime t_int16
                                  t_int8 300 eq_refl)))); reflexivity.
Defined.

Lemma NumberErr_resolved `{!Runtime} (R : numkind) (source : gomap any)
  (path : string) (v : any) :
  GetErr (T := any) source path = Done (v, None) ->
  NumberErr R source path = Done (asNumberType R v).
Proof. intros Hg. unfold NumberErr. by rewrite Hg. Qed.

(** X15.  A NaN converts to no numeric type, its own included:
    [NumberErr] fails with [ErrUnableToConvert] on it, because the
    converted value compared with the NaN is never equal. *)
Theorem NumberErr_nan :
  forall (RT : Runtime) (R : numkind) (k : float_kind) (source : gomap any)
         (path : string),
    GetErr (T := any) source path = Done (VNum (NumFloat k S754_nan), None) ->
    NumberErr R source path =
      Done (zero_num R,
            Some (Errorf
                    "%w: %T value '%v' cannot be converted to an equal value of type %T"
                    ErrUnableToConvert
                    [VNum (NumFloat k S754_nan); VNum (NumFloat k S754_nan);
                     VNum (zero_num R)])).
Proof.
  intros RT R k source path Hg. rewrite (NumberErr_resolved _ _ _ _ Hg).
  rewrite asNumberType_supported by (unfold supported; simpl; discriminate).
  rewrite convertNumber_round_trips.
  replace (round_trips R (NumFloat k S754_nan)) with false; [done|].
  unfold round_trips. simpl.
  destruct (convert R (NumFloat k S754_nan)) as [k' z|k' f]; simpl.
  - by destruct (binary_normalize (prec k) (emax k) z 0 false).
  - by destruct (round_to k f).
Qed.

Lemma NumberErr_nan_witness :
  NumberErr (KFloat t_float64)
    (obj [("a", VNum (NumFloat t_float64 S754_nan))]) "a" =
    Done (zero_num (KFloat t_float64),
          Some (Errorf
                  "%w: %T value '%v' cannot be converted to an equal value of type %T"
                  ErrUnableToConvert
                  [VNum (NumFloat t_float64 S754_nan);
                   VNum (NumFloat t_float64 S754_nan);
                   VNum (zero_num (KFloat t_float64))])).
Proof.
  apply (NumberErr_nan sample_runtime).
  vm_compute; reflexivity.
Defined.

(** ** Byte slices and strings *)

(** X16.  [BytesErr] extends [GetErr[[]byte]]: whatever [GetErr[[]byte]]
    returns without an error [BytesErr] returns too, and on a string,
    where [GetErr[[]byte]] fails with [ErrUnexpectedType], [BytesErr]
    returns the bytes of the string. *)
Theorem BytesErr_extends_GetErr :
  forall (source : gomap any) (path : string),
    (forall b : slice Byte.byte,
        GetErr (T := slice Byte.byte) source path = Done (b, None) ->
        BytesErr source path = Done (b, None))
    /\ (forall s : string,
           GetErr (T := string) source path = Done (s, None) ->
           GetErr (T := slice Byte.byte) source path =
             Done (SliceNil,
                   Some (Errorf "%w: '%T'" ErrUnexpectedType [VString s]))
           /\ BytesErr source path = Done (bytes_of_string s, None)).
Proof.
  intros source path. split.
  - intros b Hg.
    destruct (proj2 (GetErr_via_any _ _ source path) b Hg)
      as (v & Hany & Ha).
    destruct v; try discriminate. injection Ha as ->.
    unfold BytesErr. by rewrite Hany.
  - intros s Hg.
    destruct (proj2 (GetErr_via_any _ _ source path) s Hg)
      as (v & Hany & Ha).
    destruct v; try discriminate. injection Ha as ->. split.
    + by rewrite (proj2 (proj1 (GetErr_via_any
                                  (slice Byte.byte) _ source path) _ Hany)).
    + unfold BytesErr. by rewrite Hany.
Qed.

Lemma BytesErr_extends_GetErr_witness :
  BytesErr tree_leaf "a" = Done (bytes_of_string "b", None).
Proof.
  apply (proj2 (BytesErr_extends_GetErr tree_leaf "a") "b").
  vm_compute; reflexivity.
Defined.

(** ** Paths and segments *)

Lemma Split_concat (s : string) (sep : ascii) :
  String.concat (String sep EmptyString) (Split s sep) = s.
Proof.
  induction s as [|c s IH]; [done|]. simpl.
  pose proof (Split_nonempty s sep) as Hne.
  destruct (Split s sep) as [|w ws]; [done|].
  destruct (Ascii.eqb c sep) eqn:Hc.
  - apply Ascii.eqb_eq in Hc as ->.
    change (String sep (String.concat (String sep "") (w :: ws)) =
            String sep s).
    by rewrite IH.
  - destruct ws as [|x xs]; [simpl in *; by rewrite IH|].
    change (String c (String.concat (String sep "") (w :: x :: xs)) =
            String c s).
    by rewrite IH.
Qed.

Lemma Split_atomic (s : string) (sep : ascii) :
  Forall (fun seg => Split seg sep = [seg]) (Split s sep).
Proof.
  induction s as [|c s IH]; simpl.
  - by constructor.
  - destruct (Ascii.eqb c sep) eqn:Hc.
    + by constructor.
    + pose proof (Split_nonempty s sep) as Hne.
      destruct (Split s sep) as [|w ws]; [done|].
      apply Forall_cons in IH as [Hw Hws]. constructor; [|done].
      simpl. by rewrite Hc, Hw.
Qed.

(** X17.  The segments of a path.  [GetErr] walks at least one segment;
    joining the segments with dots gives the path back, no segment can
    be split further, and the segments of [p.q] are those of [p] followed
    by those of [q]. *)
Theorem path_segments :
  forall p q : string,
    Split p "." <> []
    /\ String.concat "." (Split p ".") = p
    /\ Forall (fun seg => Split seg "." = [seg]) (Split p ".")
    /\ Split (p +:+ "." +:+ q) "." = Split p "." ++ Split q ".".
Proof.
  intros p q. split; [apply Split_nonempty|].
  split; [apply Split_concat|]. split; [apply Split_atomic|].
  apply Split_app.
Qed.

(** ** The two revisions *)

Lemma Earlier_asNumberType_signed `{!Runtime} (R : numkind) (v : any) :
  (forall (k : int_kind) (z : Z),
      v = VNum (NumInt k z) -> signed k = true \/ k = t_uintptr) ->
  (Earlier.asNumberType R v).1 = (asNumberType R v).1
  /\ Unwrap <$> (Earlier.asNumberType R v).2
     = Unwrap <$> (asNumberType R v).2.
Proof.
  intros Hs.
  assert (Hc : forall x : number,
             (Earlier.convertNumber R x).1 = (convertNumber R x).1
             /\ Unwrap <$> (Earlier.convertNumber R x).2
                = Unwrap <$> (convertNumber R x).2).
  { intros x. unfold Earlier.convertNumber, convertNumber.
    by destruct (num_eqb _ x). }
  destruct v as [| | | |[k z|[] f]| | |]; try done; try apply Hc.
  destruct (Hs k z eq_refl) as [Hk| ->]; [|done].
  destruct k; try discriminate; apply Hc.
Qed.

(** X18.  The two revisions of [IntErr] and [Float64Err].  They end the
    same way (up to the text of the message) on every tree and path,
    unless the path resolves to an unsigned integer: those the earlier
    revision rejects with [ErrUnexpectedType]. *)
Theorem Earlier_numbers :
  forall (RT : Runtime) (source : gomap any) (path : string),
    ((forall (k : int_kind) (z : Z),
         GetErr (T := any) source path = Done (VNum (NumInt k z), None) ->
         signed k = true \/ k = t_uintptr) ->
     same_outcome (Earlier.IntErr source path) (IntErr source path)
     /\ same_outcome (Earlier.Float64Err source path)
          (Float64Err source path))
    /\ (forall (k : int_kind) (z : Z),
           GetErr (T := any) source path = Done (VNum (NumInt k z), None) ->
           signed k = false ->
           Earlier.IntErr source path =
             Done (NumInt t_int 0,
                   Some (Errorf "%w: %T is not a supported numeric type"
                           ErrUnexpectedType [VNum (NumInt k z)]))
           /\ Earlier.Float64Err source path =
                Done (NumFloat t_float64 (S754_zero false),
                      Some (Errorf "%w: %T is not a supported numeric type"
                              ErrUnexpectedType [VNum (NumInt k z)]))).
Proof.
  intros RT source path. split.
  - intros Hs.
    unfold Earlier.IntErr, Earlier.Float64Err, IntErr, Float64Err, NumberErr.
    destruct (GetErr (T := any) source path) as [[v [e|]]|msg] eqn:Hg;
      simpl; try done.
    assert (Hv : forall (k : int_kind) (z : Z),
               v = VNum (NumInt k z) -> signed k = true \/ k = t_uintptr).
    { intros k z ->. by apply (Hs k z). }
    pose proof (Earlier_asNumberType_signed (KInt t_int) v Hv) as Hi.
    pose proof (Earlier_asNumberType_signed (KFloat t_float64) v Hv) as Hf.
    destruct (Earlier.asNumberType (KInt t_int) v),
      (asNumberType (KInt t_int) v),
      (Earlier.asNumberType (KFloat t_float64) v),
      (asNumberType (KFloat t_float64) v).
    by split.
  - intros k z Hg Hs. unfold Earlier.IntErr, Earlier.Float64Err.
    rewrite Hg. by destruct k.
Qed.

Lemma Earlier_numbers_witness :
  same_outcome (Earlier.IntErr (obj [("a", f64 3 (-1))]) "a")
    (IntErr (obj [("a", f64 3 (-1))]) "a")
  /\ Earlier.IntErr (obj [("a", VNum (NumInt t_uint8 7))]) "a" =
       Done (NumInt t_int 0,
             Some (Errorf "%w: %T is not a supported numeric type"
                     ErrUnexpectedType [VNum (NumInt t_uint8 7)])).
Proof.
  split.
  - apply (proj1 (proj1 (Earlier_numbers sample_runtime
                           (obj [("a", f64 3 (-1))]) "a")
                    ltac:(intros k z Hg; vm_compute in Hg; discriminate))).
  - apply (proj1 (proj2 (Earlier_numbers sample_runtime
                           (obj [("a", VNum (NumInt t_uint8 7))]) "a")
                    t_uint8 7 ltac:(vm_compute; reflexivity) eq_refl)).
Defined.

(** X19.  [MapStrAnyErr] returns without an error exactly when the path
    resolves to a [map[string]any], and returns that map as it is, nil
    values included; [MapErr[any]] of the later revision returns a map
    with the same entries when none of the values is nil. *)
Theorem MapStrAnyErr_returns_the_map :
  forall (RT : Runtime) (source : gomap any) (path : string) (m : gomap any),
    (Earlier.MapStrAnyErr source path = Done (m, None) <->
     resolves_to source path (VMap m))
    /\ (Earlier.MapStrAnyErr source path = Done (m, None) ->
        (forall k : string, table_of m !! k <> Some Nil) ->
        MapErr (V := any) source path = Done (MapOf (table_of m), None)).
Proof.
  intros RT source path m. unfold Earlier.MapStrAnyErr. split; [split|].
  - apply GetErr_map_resolves.
  - intros Hres. by rewrite (GetErr_resolves _ _ _ Hres).
  - intros Hg Hno. unfold MapErr. rewrite Hg.
    change (Done (asMapType (R := any) m) = Done (MapOf (table_of m), None)).
    f_equal. by apply asMapType_any_copy.
Qed.

(** ** One resolution for every accessor *)

(** X20.  The accessors fail alike.  When the lookup panics, every
    accessor panics; when it fails with a resolution error (any error but
    [ErrUnexpectedType]), every error-returning accessor returns that very
    error with the zero value of its result type. *)
Theorem accessors_fail_alike :
  forall (RT : Runtime) (source : gomap any) (path : string),
    (forall msg : string,
        GetErr (T := any) source path = Panic msg ->
        StrErr source path = Panic msg
        /\ BoolErr source path = Panic msg
        /\ BytesErr source path = Panic msg
        /\ (forall R : numkind, NumberErr R source path = Panic msg)
        /\ (forall (V : Type) (GV : GoType V),
               SliceErr (V := V) source path = Panic msg)
        /\ (forall (V : Type) (GV : GoType V),
               MapErr (V := V) source path = Panic msg)
        /\ (forall (T : Type) (GT : GoType T), Get (T := T) source path = Panic msg))
    /\ (forall (r : any) (e : error),
           GetErr (T := any) source path = Done (r, Some e) ->
           Unwrap e <> ErrUnexpectedType ->
           StrErr source path = Done ("", Some e)
           /\ BoolErr source path = Done (false, Some e)
           /\ BytesErr source path = Done (SliceNil, Some e)
           /\ (forall R : numkind,
                  NumberErr R source path = Done (zero_num R, Some e))
           /\ (forall (V : Type) (GV : GoType V),
                  SliceErr (V := V) source path = Done (SliceNil, Some e))
           /\ (forall (V : Type) (GV : GoType V),
                  MapErr (V := V) source path = Done (MapNil, Some e))).
Proof.
  intros RT source path. split.
  - intros msg Hp.
    assert (Hall : forall (T : Type) (GT : GoType T),
               GetErr (T := T) source path = Panic msg).
    { intros T GT. by apply (proj1 (GetErr_any_type any T _ _ source path)). }
    split; [apply (Hall string)|]. split; [apply (Hall bool)|].
    split; [unfold BytesErr; by rewrite Hp|].
    split; [intros R; unfold NumberErr; by rewrite Hp|].
    split; [intros V GV; unfold SliceErr; by rewrite (Hall (slice any))|].
    split; [intros V GV; unfold MapErr; by rewrite (Hall (gomap any))|].
    intros T GT. unfold Get. by rewrite (Hall T).
  - intros r e Hg Hne.
    assert (Hall : forall (T : Type) (GT : GoType T),
               GetErr (T := T) source path = Done (zero_value, Some e)).
    { intros T GT.
      by apply (proj2 (GetErr_any_type any T _ _ source path) r e). }
    split; [apply (Hall string)|]. split; [apply (Hall bool)|].
    split; [unfold BytesErr; by rewrite (Hall any)|].
    split; [intros R; unfold NumberErr; by rewrite (Hall any)|].
    split; [intros V GV; unfold SliceErr; by rewrite (Hall (slice any))|].
    intros V GV. unfold MapErr. by rewrite (Hall (gomap any)).
Qed.

Lemma accessors_fail_alike_witness :
  BytesErr tree_two_keys "a.1" = Panic "index out of range"
  /\ BytesErr tree_leaf "x" =
       Done (SliceNil, Some (Errorf "%w: %s" ErrKeyNotFound [VString "x"])).
Proof.
  split.
  - refine (proj1 (proj2 (proj2 (proj1 (accessors_fail_alike sample_runtime
                                           tree_two_keys "a.1")
                                   "index out of range" _)))).
    vm_compute; reflexivity.
  - refine (proj1 (proj2 (proj2 (proj2 (accessors_fail_alike sample_runtime
                                           tree_leaf "x")
                                   Nil _ _ _)))).
    + vm_compute; reflexivity.
    + simpl. discriminate.
Defined.

Lemma MapStrAnyErr_returns_the_map_witness :
  MapErr (V := any) tree_int_key "a" =
    Done (MapOf (table_of (obj [("2", VString "2_val")])), None).
Proof.
  refine (proj2 (MapStrAnyErr_returns_the_map sample_runtime tree_int_key "a"
                   (obj [("2", VString "2_val")])) _ _).
  - vm_compute; reflexivity.
  - intros k Hk. destruct (decide (k = "2")) as [->|Hne].
    + vm_compute in Hk. discriminate.
    + unfold obj, table_of in Hk. simpl in Hk.
      rewrite lookup_insert_ne in Hk by done. by rewrite lookup_empty in Hk.
Defined.
